(** * Job-lifecycle coordinator of the transcription worker

    A shallow embedding of the job-lifecycle code of
    [worker/src/index.ts]: the retry/backoff controller
    ([shouldRetryError], [getRetryDelay], [scheduleRetry],
    [startTranscription]), the reconciliation function
    ([updateJobFromSalad] with [backupTranscriptToR2] and
    [sendToAirtable]) and the three routes that reach it (the Salad
    webhook, the job status poll and the stuck-job sweep).

    Conventions of the embedding.
    - The D1 table [transcription_jobs] is a list of rows; an [UPDATE ...
      WHERE id = ?] rewrites every row with that id and a [SELECT ...
      .first()] returns the first matching row.
    - JavaScript numbers are exact rationals ([Q]); the one non-finite
      value the code can produce, [Math.max()] of no argument, is kept
      apart ([NegInfinity]).
    - Instants are milliseconds since the epoch ([Z]); an ISO string
      written by [toISOString] is identified with its instant.
    - Every operation receives the clock reading [now], and the outcome
      of the external calls it makes (Salad submission, Salad status,
      [Math.random]) as arguments.
    - The outbound side effects (R2 puts, calls of [sendToAirtable],
      posts to the Airtable webhook) are appended to a chronological
      trace; pending [setTimeout] callbacks are kept in the world. *)

From Stdlib Require Import ZArith QArith Qminmax Qround Qpower Qabs.
From Stdlib Require Import List String Ascii Bool Lia Lqa DecimalString.
Import ListNotations.

Local Open Scope Z_scope.

(* ------------------------------------------------------------------ *)
(** ** JavaScript values, numbers and strings *)

Module Js.

(** The JSON values a timestamp field of the webhook body can hold,
    and [undefined] for a missing field. *)
Inductive value : Type :=
| Undefined
| Null
| Bool (b : bool)
| Number (q : Q)
| Str (s : string).

Definition str_truthy (s : string) : bool :=
  match s with EmptyString => false | String _ _ => true end.

(** ToBoolean. *)
Definition truthy (v : value) : bool :=
  match v with
  | Undefined | Null => false
  | Bool b => b
  | Number q => negb (Qnum q =? 0)
  | Str s => str_truthy s
  end.

(** [a || b] on values. *)
Definition or_else (a b : value) : value := if truthy a then a else b.

(** [s || d] for an optional string field. *)
Definition opt_str_truthy (o : option string) : bool :=
  match o with Some s => str_truthy s | None => false end.

(** Truncation toward zero (ToIntegerOrInfinity on a finite number). *)
Definition trunc (q : Q) : Z := Z.quot (Qnum q) (Zpos (Qden q)).

(** TimeClip: a time value is an integer of magnitude at most 8.64e15,
    anything else is NaN ([None]). *)
Definition time_clip (q : Q) : option Z :=
  let t := trunc q in
  if Z.abs t <=? 8640000000000000 then Some t else None.

(** [Math.round]: nearest integer, ties toward plus infinity. *)
Definition round (q : Q) : Z := Qfloor (q + (1 # 2))%Q.

(** A number that may be the [-Infinity] of [Math.max()]. *)
Inductive num : Type :=
| Fin (q : Q)
| NegInfinity.

Definition num_max (a b : num) : num :=
  match a, b with
  | NegInfinity, _ => b
  | _, NegInfinity => a
  | Fin x, Fin y => Fin (Qmax x y)
  end.

(** [Math.max(...xs)]. *)
Definition max_of (xs : list Q) : num :=
  fold_left (fun acc x => num_max acc (Fin x)) xs NegInfinity.

(** [n / d] for a positive finite divisor. *)
Definition num_div (n : num) (d : Q) : num :=
  match n with Fin q => Fin (q / d)%Q | NegInfinity => NegInfinity end.

(** Number to string, for the integers the code prints. *)
Definition string_of_Z (z : Z) : string := NilZero.string_of_int (Z.to_int z).

Definition lower_ascii (c : ascii) : ascii :=
  let n := nat_of_ascii c in
  if andb (Nat.leb 65 n) (Nat.leb n 90) then ascii_of_nat (n + 32) else c.

(** [String.prototype.toLowerCase] on ASCII text. *)
Fixpoint toLowerCase (s : string) : string :=
  match s with
  | EmptyString => EmptyString
  | String c s' => String (lower_ascii c) (toLowerCase s')
  end.

(** [s.includes(pat)]. *)
Fixpoint includes (pat s : string) : bool :=
  if String.prefix pat s then true
  else match s with
       | EmptyString => false
       | String _ s' => includes pat s'
       end.

(** Number of occurrences of the separator character, plus one:
    [s.split(' ').length]. *)
Fixpoint split_length (sep : ascii) (s : string) : Z :=
  match s with
  | EmptyString => 1
  | String c s' =>
      (if Ascii.eqb c sep then 1 else 0) + split_length sep s'
  end.

(** An [Error] object: its [name] and [message]. *)
Record error : Type := mkError { name : string; message : string }.

(** [String(error)], that is [Error.prototype.toString]. *)
Definition error_to_string (e : error) : string :=
  match name e, message e with
  | EmptyString, m => m
  | n, EmptyString => n
  | n, m => (n ++ ": " ++ m)%string
  end.

End Js.

(* ------------------------------------------------------------------ *)
(** ** The Salad API payload ([SaladTranscriptionResponse]) *)

Module Salad.

Record segment : Type := mkSegment {
  seg_start : Q;
  seg_end : Q;
  seg_text : string;
  seg_speaker : option string
}.

(** The body of a webhook delivery or of a status response. The body is
    untyped JSON, so [status] is any string. *)
Record response : Type := mkResponse {
  job_id : string;
  status : string;
  transcript : option string;
  segments : option (list segment);
  summary : option string;
  sentiment : option string;
  translation : option string;
  captions : option string;
  processing_time : option Q
}.

(** [saladData.processing_time || 0]. *)
Definition processing_time_or_0 (d : response) : Q :=
  match processing_time d with
  | Some q => if Qnum q =? 0 then 0%Q else q
  | None => 0%Q
  end.

End Salad.

(* ------------------------------------------------------------------ *)
(** ** The stored transcript ([transcription_data] column) *)

Module Transcript.

Record metadata : Type := mkMetadata {
  saladJobId : string;
  language : string;
  md_processingTime : Q
}.

Record data : Type := mkData {
  text : string;
  segments : list Salad.segment;
  summary : option string;
  sentiment : option string;
  translation : option string;
  captions : option string;
  processingTime : option Q;
  confidence : Q;
  duration : Js.num;
  meta : metadata
}.

End Transcript.

(* ------------------------------------------------------------------ *)
(** ** The job table *)

Module Job.

(** [TranscriptionJob.status]. *)
Inductive status_t : Type :=
| Uploaded
| Processing
| Completed
| Error
| Retry.

Definition status_eqb (a b : status_t) : bool :=
  match a, b with
  | Uploaded, Uploaded | Processing, Processing | Completed, Completed
  | Error, Error | Retry, Retry => true
  | _, _ => false
  end.

(** Terminal states of the specification. *)
Definition terminal (s : status_t) : bool :=
  match s with Completed | Error => true | _ => false end.

(** A row of [transcription_jobs]. *)
Record row : Type := mkRow {
  id : string;
  filename : string;
  file_size : Z;
  file_type : string;
  salad_job_id : option string;
  status : status_t;
  transcription_data : option Transcript.data;
  error_message : option string;
  retry_count : option Z;
  last_retry_at : option Z;
  created_at : Z;
  completed_at : option Z;
  processing_time_ms : option Q;
  estimated_cost : option Js.num
}.

Definition table : Type := list row.

(** [UPDATE transcription_jobs SET ... WHERE id = ?]. *)
Definition update_where_id (jobId : string) (set : row -> row) (t : table) : table :=
  map (fun r => if String.eqb (id r) jobId then set r else r) t.

(** [SELECT ... FROM transcription_jobs WHERE id = ?] with [.first()]. *)
Definition first_where_id (jobId : string) (t : table) : option row :=
  find (fun r => String.eqb (id r) jobId) t.

(** [SELECT id FROM transcription_jobs WHERE salad_job_id = ?] with
    [.first()]; a NULL column matches nothing. *)
Definition first_where_salad_job_id (saladJobId : string) (t : table) : option row :=
  find (fun r => match salad_job_id r with
                 | Some s => String.eqb s saladJobId
                 | None => false
                 end) t.

(** [SET status = 'completed', transcription_data = ?, completed_at = ?,
     estimated_cost = ?, processing_time_ms = ?]. *)
Definition set_completed (td : Transcript.data) (at_ : Z) (cost : Js.num)
    (ms : Q) (r : row) : row :=
  {| id := id r; filename := filename r; file_size := file_size r;
     file_type := file_type r; salad_job_id := salad_job_id r;
     status := Completed;
     transcription_data := Some td;
     error_message := error_message r;
     retry_count := retry_count r; last_retry_at := last_retry_at r;
     created_at := created_at r;
     completed_at := Some at_;
     processing_time_ms := Some ms;
     estimated_cost := Some cost |}.

(** [SET status = 'error', error_message = ?]. *)
Definition set_error (msg : string) (r : row) : row :=
  {| id := id r; filename := filename r; file_size := file_size r;
     file_type := file_type r; salad_job_id := salad_job_id r;
     status := Error;
     transcription_data := transcription_data r;
     error_message := Some msg;
     retry_count := retry_count r; last_retry_at := last_retry_at r;
     created_at := created_at r; completed_at := completed_at r;
     processing_time_ms := processing_time_ms r;
     estimated_cost := estimated_cost r |}.

(** [SET status = 'retry', retry_count = ?, last_retry_at = ?,
     error_message = ?]. *)
Definition set_retry (count : Z) (at_ : Z) (msg : string) (r : row) : row :=
  {| id := id r; filename := filename r; file_size := file_size r;
     file_type := file_type r; salad_job_id := salad_job_id r;
     status := Retry;
     transcription_data := transcription_data r;
     error_message := Some msg;
     retry_count := Some count; last_retry_at := Some at_;
     created_at := created_at r; completed_at := completed_at r;
     processing_time_ms := processing_time_ms r;
     estimated_cost := estimated_cost r |}.

(** [SET salad_job_id = ?, status = 'processing']. *)
Definition set_processing (saladJobId : string) (r : row) : row :=
  {| id := id r; filename := filename r; file_size := file_size r;
     file_type := file_type r; salad_job_id := Some saladJobId;
     status := Processing;
     transcription_data := transcription_data r;
     error_message := error_message r;
     retry_count := retry_count r; last_retry_at := last_retry_at r;
     created_at := created_at r; completed_at := completed_at r;
     processing_time_ms := processing_time_ms r;
     estimated_cost := estimated_cost r |}.

(** [ORDER BY created_at DESC]. *)
Fixpoint insert_desc (r : row) (l : table) : table :=
  match l with
  | [] => [r]
  | x :: l' =>
      if created_at x <? created_at r then r :: l else x :: insert_desc r l'
  end.

Definition order_by_created_at_desc (t : table) : table :=
  fold_right insert_desc [] t.

End Job.

(* ------------------------------------------------------------------ *)
(** ** The world: table, outbound effects, pending timers *)

Module Airtable.

(** The body [sendToAirtable] posts to the Airtable webhook. *)
Record payload : Type := mkPayload {
  jobId : string;
  filename : string;
  fileSize : Z;
  fileType : string;
  status : string;
  transcriptionText : option string;
  summary : option string;
  sentiment : option string;
  translation : option string;
  captions : option string;
  wordCount : Z;
  saladJobId : string;
  processingTime : Q;
  createdAt : Z;
  completedAt : Z;
  segments : list Salad.segment;
  eventType : string
}.

End Airtable.

Inductive effect : Type :=
| R2Put (at_ : Z) (jobId : string) (file : string)
| SendToAirtable (jobId : string) (saladData : Salad.response)
| AirtablePost (body : Airtable.payload).

(** A [setTimeout] callback that will call [startTranscription]. *)
Record timer : Type := mkTimer {
  timer_delay : Q;
  timer_jobId : string;
  timer_fileKey : string
}.

Record World : Type := mkWorld {
  db : Job.table;
  trace : list effect;
  timers : list timer
}.

Definition with_db (w : World) (t : Job.table) : World :=
  {| db := t; trace := trace w; timers := timers w |}.

Definition emit (w : World) (e : effect) : World :=
  {| db := db w; trace := trace w ++ [e]; timers := timers w |}.

Definition add_timer (w : World) (t : timer) : World :=
  {| db := db w; trace := trace w; timers := timers w ++ [t] |}.

Definition is_sendToAirtable (e : effect) : bool :=
  match e with SendToAirtable _ _ => true | _ => false end.

(** How many times [sendToAirtable] has been called. *)
Definition sendToAirtable_calls (w : World) : nat :=
  List.length (filter is_sendToAirtable (trace w)).

(* ------------------------------------------------------------------ *)
(** ** Retry and backoff controller *)

Module Worker.

Local Open Scope string_scope.

Definition COST_PER_MINUTE : Q := 4 # 1000.

(** [Math.round(durationMinutes * COST_PER_MINUTE * 100) / 100], on
    exact rationals. The code rounds each product to a binary64 number
    before [Math.round]; where the exact product is a tie or next to
    one the two can differ by a cent (36.25 minutes: 0.14 in the code,
    0.15 here). No statement below depends on which cent is taken. *)
Definition estimateCost (durationMinutes : Js.num) : Js.num :=
  match durationMinutes with
  | Js.Fin d =>
      Js.Fin (inject_Z (Js.round (d * COST_PER_MINUTE * 100)) / 100)%Q
  | Js.NegInfinity => Js.NegInfinity
  end.

Definition MAX_RETRY_ATTEMPTS : Z := 3.
Definition RETRY_DELAY_BASE_MS : Q := 5000.
Definition RETRY_DELAY_MAX_MS : Q := 300000.

Definition retryableErrors : list string :=
  [ "network error"; "timeout"; "rate limit"; "temporarily unavailable";
    "service unavailable"; "502"; "503"; "504"; "gateway timeout" ].

Definition shouldRetryError (error : Js.error) : bool :=
  let errorMessage := Js.toLowerCase (Js.message error) in
  existsb (fun pattern => Js.includes pattern errorMessage) retryableErrors.

(** [random] is the value [Math.random()] returns, in [0, 1). The sum
    is exact here; the code rounds it to a binary64 number, which for a
    [random] next to 1 is [delay + 1000] itself, so the bounds stated
    below are closed. *)
Definition getRetryDelay (retryCount : Z) (random : Q) : Q :=
  let delay :=
    Qmin (RETRY_DELAY_BASE_MS * 2 ^ retryCount)%Q RETRY_DELAY_MAX_MS in
  let jitter := (random * 1000)%Q in
  (delay + jitter)%Q.

Definition retry_message (delay : Q) (retryCount : Z) : string :=
  "Retrying in " ++ Js.string_of_Z (Js.round (delay / 1000)%Q)
  ++ " seconds (attempt " ++ Js.string_of_Z (retryCount + 1)
  ++ "/" ++ Js.string_of_Z MAX_RETRY_ATTEMPTS ++ ")".

Definition scheduleRetry (w : World) (now : Z) (jobId fileKey : string)
    (retryCount : Z) (random : Q) : World :=
  let delay := getRetryDelay retryCount random in
  let w1 :=
    with_db w
      (Job.update_where_id jobId
         (Job.set_retry retryCount now (retry_message delay retryCount))
         (db w)) in
  add_timer w1
    {| timer_delay := delay; timer_jobId := jobId; timer_fileKey := fileKey |}.

(** What the [try] block of [startTranscription] runs into: the Salad
    job was created, or something threw. *)
Inductive submit_outcome : Type :=
| Submitted (saladJobId : string)
| SubmitThrows (error : Js.error).

(** [(jobResult?.retry_count as number) || 0]. *)
Definition currentRetryCount (jobId : string) (t : Job.table) : Z :=
  match Job.first_where_id jobId t with
  | Some jobResult =>
      match Job.retry_count jobResult with Some n => n | None => 0 end
  | None => 0
  end.

Definition final_error_message (count : Z) (error : Js.error) : string :=
  if (MAX_RETRY_ATTEMPTS <=? count)%Z
  then "Failed after " ++ Js.string_of_Z MAX_RETRY_ATTEMPTS
       ++ " retry attempts: " ++ Js.error_to_string error
  else "Non-retryable error: " ++ Js.error_to_string error.

Definition startTranscription (w : World) (now : Z) (jobId fileKey : string)
    (outcome : submit_outcome) (random : Q) : World :=
  match outcome with
  | Submitted saladJobId =>
      with_db w (Job.update_where_id jobId (Job.set_processing saladJobId) (db w))
  | SubmitThrows error =>
      let count := currentRetryCount jobId (db w) in
      let shouldRetry := shouldRetryError error in
      if shouldRetry && (count <? MAX_RETRY_ATTEMPTS)%Z
      then scheduleRetry w now jobId fileKey count random
      else
        with_db w
          (Job.update_where_id jobId
             (Job.set_error (final_error_message count error)) (db w))
  end.

(** The oldest pending timer fires: its callback calls
    [startTranscription] again. *)
Definition fire_timer (w : World) (now : Z) (outcome : submit_outcome)
    (random : Q) : World :=
  match timers w with
  | [] => w
  | t :: rest =>
      startTranscription
        {| db := db w; trace := trace w; timers := rest |}
        now (timer_jobId t) (timer_fileKey t) outcome random
  end.

(** A submission that throws the same error on the first call and on
    each of the [n] timer callbacks that follow; [clock k] and
    [random k] are the clock reading and the [Math.random()] value of
    attempt [k]. *)
Fixpoint failing_attempts (error : Js.error) (clock : nat -> Z)
    (random : nat -> Q) (jobId fileKey : string) (n : nat) (w : World) : World :=
  match n with
  | O =>
      startTranscription w (clock O) jobId fileKey (SubmitThrows error)
        (random O)
  | S k =>
      fire_timer (failing_attempts error clock random jobId fileKey k w)
        (clock n) (SubmitThrows error) (random n)
  end.

(* ------------------------------------------------------------------ *)
(** ** Reconciliation *)

(** The [transcriptionData] object built in the completed branch. *)
Definition transcriptionData (saladData : Salad.response) : Transcript.data :=
  {| Transcript.text :=
       match Salad.transcript saladData with Some t => t | None => "" end;
     Transcript.segments :=
       match Salad.segments saladData with Some l => l | None => [] end;
     Transcript.summary := Salad.summary saladData;
     Transcript.sentiment := Salad.sentiment saladData;
     Transcript.translation := Salad.translation saladData;
     Transcript.captions := Salad.captions saladData;
     Transcript.processingTime := Salad.processing_time saladData;
     Transcript.confidence := (95 # 100);
     Transcript.duration :=
       match Salad.segments saladData with
       | Some l => Js.max_of (map Salad.seg_end l)
       | None => Js.Fin 0
       end;
     Transcript.meta :=
       {| Transcript.saladJobId := Salad.job_id saladData;
          Transcript.language := "en";
          Transcript.md_processingTime := Salad.processing_time_or_0 saladData |}
  |}.

Definition backupTranscriptToR2 (w : World) (now : Z) (jobId : string)
    (td : Transcript.data) (saladData : Salad.response) : World :=
  let w1 := emit w (R2Put now jobId "transcript.json") in
  let w2 := emit w1 (R2Put now jobId "transcript.txt") in
  if Js.opt_str_truthy (Salad.captions saladData)
     || (0 <? Z.of_nat (List.length (Transcript.segments td)))%Z
  then emit w2 (R2Put now jobId "transcript.srt")
  else w2.

Definition sendToAirtable (w : World) (now : Z) (jobId : string)
    (saladData : Salad.response) : World :=
  let w1 := emit w (SendToAirtable jobId saladData) in
  match Job.first_where_id jobId (db w1) with
  | None => w1
  | Some jobResult =>
      emit w1
        (AirtablePost
           {| Airtable.jobId := jobId;
              Airtable.filename := Job.filename jobResult;
              Airtable.fileSize := Job.file_size jobResult;
              Airtable.fileType := Job.file_type jobResult;
              Airtable.status := "completed";
              Airtable.transcriptionText := Salad.transcript saladData;
              Airtable.summary := Salad.summary saladData;
              Airtable.sentiment := Salad.sentiment saladData;
              Airtable.translation := Salad.translation saladData;
              Airtable.captions := Salad.captions saladData;
              Airtable.wordCount :=
                match Salad.transcript saladData with
                | Some t => Js.split_length " "%char t
                | None => 0
                end;
              Airtable.saladJobId := Salad.job_id saladData;
              Airtable.processingTime := Salad.processing_time_or_0 saladData;
              Airtable.createdAt := Job.created_at jobResult;
              Airtable.completedAt := now;
              Airtable.segments :=
                match Salad.segments saladData with Some l => l | None => [] end;
              Airtable.eventType := "job_completed" |})
  end.

Definition updateJobFromSalad (w : World) (now : Z) (jobId : string)
    (saladData : Salad.response) : World :=
  if (Salad.status saladData =? "completed")
     && Js.opt_str_truthy (Salad.transcript saladData)
  then
    let td := transcriptionData saladData in
    let actualDurationMinutes := Js.num_div (Transcript.duration td) 60 in
    let actualCost := estimateCost actualDurationMinutes in
    let processingTimeMs := (Salad.processing_time_or_0 saladData * 1000)%Q in
    let w1 :=
      with_db w
        (Job.update_where_id jobId
           (Job.set_completed td now actualCost processingTimeMs) (db w)) in
    let w2 := backupTranscriptToR2 w1 now jobId td saladData in
    sendToAirtable w2 now jobId saladData
  else if Salad.status saladData =? "failed"
  then
    with_db w
      (Job.update_where_id jobId (Job.set_error "Transcription failed") (db w))
  else w.

End Worker.

(* ------------------------------------------------------------------ *)
(** ** Routes that reach the reconciliation function *)

Module Routes.

Local Open Scope string_scope.

(** What the webhook handler reads of a delivery: the two timestamp
    fields of the parsed body, the [x-webhook-timestamp] header, and the
    body as handed to [updateJobFromSalad]. *)
Record webhook_request : Type := mkRequest {
  timestamp : Js.value;
  created_at : Js.value;
  x_webhook_timestamp : option string;
  payload : Salad.response
}.

(** The answers of [app.post('/webhook/salad')]: [{ success: true }],
    [{ error: 'Webhook expired' }] with status 401 and
    [{ error: 'Job not found' }] with status 404. *)
Inductive http_response : Type :=
| Success200
| WebhookExpired401
| JobNotFound404.

(** [payload.timestamp || payload.created_at ||
     c.req.header('x-webhook-timestamp')]. *)
Definition webhookTimestamp (req : webhook_request) : Js.value :=
  Js.or_else (Js.or_else (timestamp req) (created_at req))
    (match x_webhook_timestamp req with
     | Some h => Js.Str h
     | None => Js.Undefined
     end).

Definition maxAge : Z := 300000.

Inductive sweep_action : Type :=
| ActCompleted
| ActFailed
| ActStillProcessing
| ActNoSaladStatus.

Inductive poll_response : Type :=
| PollNotFound
| PollJob (job : Job.row).

(** The three fields the poll handler re-reads after an update. *)
Definition refreshed (job updatedResult : Job.row) : Job.row :=
  {| Job.id := Job.id job; Job.filename := Job.filename job;
     Job.file_size := Job.file_size job; Job.file_type := Job.file_type job;
     Job.salad_job_id := Job.salad_job_id job;
     Job.status := Job.status updatedResult;
     Job.transcription_data := Job.transcription_data updatedResult;
     Job.error_message := Job.error_message job;
     Job.retry_count := Job.retry_count job;
     Job.last_retry_at := Job.last_retry_at job;
     Job.created_at := Job.created_at job;
     Job.completed_at := Job.completed_at updatedResult;
     Job.processing_time_ms := Job.processing_time_ms job;
     Job.estimated_cost := Job.estimated_cost job |}.

Section Handlers.

(** [Date.parse] on a string: its time value, [None] for NaN. *)
Variable Date_parse : string -> option Z.

(** [checkSaladStatus]: the status the Salad API reports for a Salad job
    id, [None] when the call fails. *)
Variable checkSaladStatus : string -> option Salad.response.

(** [new Date(v).getTime()], [None] for NaN. *)
Definition date_getTime (v : Js.value) : option Z :=
  match v with
  | Js.Str s => Date_parse s
  | Js.Number q => Js.time_clip q
  | Js.Bool b => Some (if b then 1 else 0)%Z
  | Js.Null => Some 0%Z
  | Js.Undefined => None
  end.

(** [app.post('/webhook/salad')], on a body that parsed. *)
Definition webhook_salad (w : World) (now : Z) (req : webhook_request)
    : http_response * World :=
  let stale :=
    if Js.truthy (webhookTimestamp req)
    then
      match date_getTime (webhookTimestamp req) with
      | Some webhookTime =>
          let timeDiff := Z.abs (now - webhookTime) in
          (maxAge <? timeDiff)%Z
      | None => false
      end
    else false in
  if stale then (WebhookExpired401, w)
  else
    match Job.first_where_salad_job_id (Salad.job_id (payload req)) (db w) with
    | None => (JobNotFound404, w)
    | Some result =>
        (Success200,
         Worker.updateJobFromSalad w now (Job.id result) (payload req))
    end.

(** [app.get('/job/:jobId/status')]. *)
Definition job_status (w : World) (now : Z) (jobId : string)
    : poll_response * World :=
  match Job.first_where_id jobId (db w) with
  | None => (PollNotFound, w)
  | Some job =>
      if Job.status_eqb (Job.status job) Job.Processing
         && Js.opt_str_truthy (Job.salad_job_id job)
      then
        match checkSaladStatus
                (match Job.salad_job_id job with Some s => s | None => "" end)
        with
        | Some saladStatus =>
            if negb (Salad.status saladStatus =? "processing")
            then
              let w' := Worker.updateJobFromSalad w now jobId saladStatus in
              match Job.first_where_id jobId (db w') with
              | Some updatedResult => (PollJob (refreshed job updatedResult), w')
              | None => (PollJob job, w')
              end
            else (PollJob job, w)
        | None => (PollJob job, w)
        end
      else (PollJob job, w)
  end.

(** The body of the sweep's loop for one stuck job. *)
Definition fix_stuck_job (now : Z) (w : World) (job : Job.row)
    : World * (string * sweep_action) :=
  match checkSaladStatus
          (match Job.salad_job_id job with Some s => s | None => "null" end)
  with
  | Some saladStatus =>
      if (Salad.status saladStatus =? "completed")
         || (Salad.status saladStatus =? "succeeded")
      then
        (Worker.updateJobFromSalad w now (Job.id job) saladStatus,
         (Job.id job, ActCompleted))
      else if Salad.status saladStatus =? "failed"
      then
        (with_db w
           (Job.update_where_id (Job.id job)
              (Job.set_error "Job failed at Salad") (db w)),
         (Job.id job, ActFailed))
      else (w, (Job.id job, ActStillProcessing))
  | None => (w, (Job.id job, ActNoSaladStatus))
  end.

(** The rows the sweep selects: [status = 'processing' AND created_at < ?]
    with the cutoff ten minutes before [now], newest first. *)
Definition stuckJobs (w : World) (now : Z) : Job.table :=
  let cutoffTime := (now - 10 * 60 * 1000)%Z in
  Job.order_by_created_at_desc
    (filter (fun r => Job.status_eqb (Job.status r) Job.Processing
                      && (Job.created_at r <? cutoffTime)%Z)
       (db w)).

Definition fix_stuck_loop (now : Z) (jobs : Job.table) (w : World)
    : list (string * sweep_action) * World :=
  fold_left
    (fun acc job =>
       let '(w', result) := fix_stuck_job now (snd acc) job in
       ((fst acc ++ [result])%list, w'))
    jobs ([], w).

(** [app.post('/debug/fix-stuck-jobs')]. *)
Definition fix_stuck_jobs (w : World) (now : Z)
    : list (string * sweep_action) * World :=
  fix_stuck_loop now (stuckJobs w now) w.

End Handlers.

End Routes.

(* ------------------------------------------------------------------ *)
(** ** Concrete jobs, payloads and worlds used in the examples *)

Module Sample.

Local Open Scope string_scope.

Definition job (s : Job.status_t) (saladJobId : option string) : Job.row :=
  {| Job.id := "job-1"; Job.filename := "talk.mp3"; Job.file_size := 5000000;
     Job.file_type := "audio/mpeg"; Job.salad_job_id := saladJobId;
     Job.status := s; Job.transcription_data := None;
     Job.error_message := None; Job.retry_count := Some 0;
     Job.last_retry_at := None; Job.created_at := 0;
     Job.completed_at := None; Job.processing_time_ms := Some 0%Q;
     Job.estimated_cost := Some (Js.Fin 0) |}.

Definition world_of (r : Job.row) : World :=
  {| db := [r]; trace := []; timers := [] |}.

(** Scenario A of the specification: job [ext-1] is being processed. *)
Definition processing_world : World :=
  world_of (job Job.Processing (Some "ext-1")).

Definition uploaded_world : World := world_of (job Job.Uploaded None).

Definition errored_world : World :=
  world_of (job Job.Error (Some "ext-1")).

Definition completed_world : World :=
  world_of (job Job.Completed (Some "ext-1")).

Definition result (jobId status : string) (transcript : option string)
    : Salad.response :=
  {| Salad.job_id := jobId; Salad.status := status;
     Salad.transcript := transcript; Salad.segments := None;
     Salad.summary := None; Salad.sentiment := None;
     Salad.translation := None; Salad.captions := None;
     Salad.processing_time := None |}.

Definition completed : Salad.response :=
  result "ext-1" "completed" (Some "hello").

Definition failed : Salad.response := result "ext-1" "failed" None.

Definition still_processing : Salad.response :=
  result "ext-1" "processing" None.

(** A delivery without any timestamp. *)
Definition delivery (body : Salad.response) : Routes.webhook_request :=
  {| Routes.timestamp := Js.Undefined; Routes.created_at := Js.Undefined;
     Routes.x_webhook_timestamp := None; Routes.payload := body |}.

(** A delivery stamped one second after the epoch. *)
Definition old_delivery (body : Salad.response) : Routes.webhook_request :=
  {| Routes.timestamp := Js.Number 1000; Routes.created_at := Js.Undefined;
     Routes.x_webhook_timestamp := None; Routes.payload := body |}.

(** A date parser that understands no string. *)
Definition no_parse (_ : string) : option Z := None.

(** A Salad API that answers [r] for every job. *)
Definition salad_says (r : Salad.response) (_ : string) : option Salad.response :=
  Some r.

Definition error503 : Js.error := Js.mkError "Error" "Salad API error: 503".

Definition noon : Z := 1000000000.

End Sample.

(* ------------------------------------------------------------------ *)
(** ** String methods used by the routes *)

Module Text.

Local Open Scope string_scope.

(** The string without its first [n] characters. *)
Fixpoint drop (n : nat) (s : string) : string :=
  match n, s with
  | O, _ => s
  | S k, String _ s' => drop k s'
  | S _, EmptyString => EmptyString
  end.

(** [s.replace(pat, rep)] for a string pattern and a replacement without
    [$]: the first occurrence of [pat] is replaced. *)
Fixpoint replace (pat rep s : string) : string :=
  if String.prefix pat s then rep ++ drop (String.length pat) s
  else match s with
       | EmptyString => EmptyString
       | String c s' => String c (replace pat rep s')
       end.

(** [s.split(sep)] for a one-character separator. *)
Fixpoint split (sep : ascii) (s : string) : list string :=
  match s with
  | EmptyString => [EmptyString]
  | String c s' =>
      if Ascii.eqb c sep then EmptyString :: split sep s'
      else match split sep s' with
           | h :: t => String c h :: t
           | [] => [String c EmptyString]
           end
  end.

(** [`${parts[i]}`]: an index past the end prints as [undefined]. *)
Definition part (i : nat) (parts : list string) : string :=
  nth i parts "undefined".

(** [parts.pop()] of a split, which is never empty. *)
Definition pop (parts : list string) : string := last parts EmptyString.

(** The ASCII characters that [\s] matches. *)
Definition is_space (c : ascii) : bool :=
  let n := nat_of_ascii c in
  (Nat.eqb n 32 || (Nat.leb 9 n && Nat.leb n 13))%bool.

(** [s.replace(/\s+/g, '_')]; [in_run] tells that the previous character
    was white space. *)
Fixpoint underscore_spaces_from (in_run : bool) (s : string) : string :=
  match s with
  | EmptyString => EmptyString
  | String c s' =>
      if is_space c
      then if in_run then underscore_spaces_from true s'
           else String "_" (underscore_spaces_from true s')
      else String c (underscore_spaces_from false s')
  end.

Definition underscore_spaces (s : string) : string :=
  underscore_spaces_from false s.

Fixpoint repeat_char (c : ascii) (n : nat) : string :=
  match n with O => EmptyString | S k => String c (repeat_char c k) end.

(** [s.padStart(n, c)] for a one-character filler. *)
Definition padStart (n : nat) (c : ascii) (s : string) : string :=
  repeat_char c (n - String.length s) ++ s.

(** [a % b] on numbers: the remainder has the sign of the dividend. *)
Definition rem (a b : Q) : Q := (a - b * inject_Z (Js.trunc (a / b)))%Q.

End Text.

(* ------------------------------------------------------------------ *)
(** ** File validation and cost estimation *)

Module Files.

Local Open Scope string_scope.

(** [2.5 * 1024 * 1024 * 1024]. *)
Definition MAX_FILE_SIZE : Q := 2684354560.

Definition MONTHLY_USAGE_LIMIT_MINUTES : Q := 6000.

(** [filename.toLowerCase().split('.').pop()]. *)
Definition extension (filename : string) : string :=
  Text.pop (Text.split "." (Js.toLowerCase filename)).

(** The [switch] of [estimateAudioDuration]. *)
Definition bitsPerSecond (ext : string) : Q :=
  if ext =? "mp3" then 128000
  else if (ext =? "m4a") || (ext =? "mp4") then 256000
  else if (ext =? "wav") || (ext =? "flac") then 1411200
  else if ext =? "ogg" then 192000
  else 128000.

Definition estimateAudioDuration (fileSize : Q) (filename : string) : Q :=
  let durationSeconds := (fileSize * 8 / bitsPerSecond (extension filename))%Q in
  Qmax (durationSeconds / 60)%Q (1 # 10).

Definition validExtensions : list string :=
  [ "mp3"; "mp4"; "m4a"; "wav"; "flac"; "ogg"; "mov"; "avi"; "webm"; "mkv" ].

(** [validExtensions.includes(extension || '')]. *)
Definition validateFileType (filename : string) : bool :=
  existsb (String.eqb (extension filename)) validExtensions.

End Files.

(* ------------------------------------------------------------------ *)
(** ** SRT time stamps *)

Module Srt.

Local Open Scope string_scope.

(** The four numbers [formatSRTTime] prints, on exact rationals. The
    code rounds [(seconds % 1) * 1000] to a binary64 number before
    [Math.floor], so its millisecond digit can be one above the one
    computed here; the ranges of the four numbers are the same. *)
Definition hrs (seconds : Q) : Z := Qfloor (seconds / 3600).
Definition mins (seconds : Q) : Z := Qfloor (Text.rem seconds 3600 / 60).
Definition secs (seconds : Q) : Z := Qfloor (Text.rem seconds 60).
Definition ms (seconds : Q) : Z := Qfloor (Text.rem seconds 1 * 1000).

Definition formatSRTTime (seconds : Q) : string :=
  Text.padStart 2 "0" (Js.string_of_Z (hrs seconds)) ++ ":"
  ++ Text.padStart 2 "0" (Js.string_of_Z (mins seconds)) ++ ":"
  ++ Text.padStart 2 "0" (Js.string_of_Z (secs seconds)) ++ ","
  ++ Text.padStart 3 "0" (Js.string_of_Z (ms seconds)).

End Srt.

(* ------------------------------------------------------------------ *)
(** ** Authentication *)

Module Auth.

Local Open Scope string_scope.

(** The [authenticate] middleware: [true] when the request goes on to
    the route, [false] when it is answered 401. *)
Definition authenticate (ACCESS_TOKEN : string) (authHeader : option string)
    : bool :=
  match authHeader with
  | None => false
  | Some h =>
      let token := Text.replace "Bearer " "" h in
      negb (negb (Js.str_truthy token) || negb (token =? ACCESS_TOKEN))
  end.

End Auth.

(* ------------------------------------------------------------------ *)
(** ** Upload keys and job creation *)

Module Upload.

Local Open Scope string_scope.

(** The body of [POST /upload/signed-url]. [fileSize] is optional. *)
Record signed_url_request : Type := mkSignedUrlRequest {
  req_filename : option string;
  req_fileSize : option Z
}.

Inductive signed_url_response : Type :=
| FilenameRequired400
| UnsupportedFileType400
| FileTooLarge400
| UsageLimitExceeded429
| UploadTarget (jobId key : string).

(** [fileSize] as a condition: present and not zero. *)
Definition size_truthy (o : option Z) : bool :=
  match o with Some n => negb (n =? 0)%Z | None => false end.

Definition size_or_0 (o : option Z) : Z :=
  match o with Some n => n | None => 0%Z end.

(** [`uploads/${timestamp}-${randomId}-${safeFilename}`]. *)
Definition upload_key (timestamp : Z) (randomId filename : string) : string :=
  "uploads/" ++ Js.string_of_Z timestamp ++ "-" ++ randomId ++ "-"
  ++ Text.underscore_spaces filename.

(** [`job-${timestamp}-${randomId}`]. *)
Definition new_jobId (timestamp : Z) (randomId : string) : string :=
  "job-" ++ Js.string_of_Z timestamp ++ "-" ++ randomId.

(** The row the [INSERT] of the route creates; the columns it does not
    name take their defaults. *)
Definition new_job (jobId filename : string) (fileSize : option Z)
    (estimatedCost : Js.num) (createdAt : Z) : Job.row :=
  {| Job.id := jobId; Job.filename := filename;
     Job.file_size := size_or_0 fileSize; Job.file_type := "";
     Job.salad_job_id := None; Job.status := Job.Uploaded;
     Job.transcription_data := None; Job.error_message := None;
     Job.retry_count := Some 0%Z; Job.last_retry_at := None;
     Job.created_at := createdAt; Job.completed_at := None;
     Job.processing_time_ms := Some 0%Q;
     Job.estimated_cost := Some estimatedCost |}.

(** [app.post('/upload/signed-url')], on an authenticated request.
    [usedMinutes] is the result of the monthly usage query, [randomId]
    the nine characters drawn from [Math.random()]. *)
Definition signed_url (w : World) (now : Z) (usedMinutes : Q)
    (randomId : string) (req : signed_url_request)
    : signed_url_response * World :=
  match req_filename req with
  | None => (FilenameRequired400, w)
  | Some filename =>
      if negb (Js.str_truthy filename) then (FilenameRequired400, w)
      else if negb (Files.validateFileType filename)
      then (UnsupportedFileType400, w)
      else if size_truthy (req_fileSize req)
              && negb (Qle_bool (inject_Z (size_or_0 (req_fileSize req)))
                         Files.MAX_FILE_SIZE)
      then (FileTooLarge400, w)
      else
        let estimatedDuration :=
          if size_truthy (req_fileSize req)
          then Files.estimateAudioDuration
                 (inject_Z (size_or_0 (req_fileSize req))) filename
          else 10%Q in
        if negb (Qle_bool (usedMinutes + estimatedDuration)
                   Files.MONTHLY_USAGE_LIMIT_MINUTES)
        then (UsageLimitExceeded429, w)
        else
          let key := upload_key now randomId filename in
          let estimatedCost :=
            if size_truthy (req_fileSize req)
            then Worker.estimateCost
                   (Js.Fin
                      (Files.estimateAudioDuration
                         (inject_Z (size_or_0 (req_fileSize req))) filename))
            else Js.Fin 0 in
          let jobId := new_jobId now randomId in
          (UploadTarget jobId key,
           with_db w
             (db w ++ [new_job jobId filename (req_fileSize req)
                         estimatedCost now])%list)
  end.

(** [fullPath.replace('/upload/', '')] in [app.post('/upload/*')]. *)
Definition key_of_path (fullPath : string) : string :=
  Text.replace "/upload/" "" fullPath.

(** The job id [app.post('/upload/*')] derives from the key. *)
Definition jobId_of_key (key : string) : string :=
  let keyWithoutPrefix := Text.replace "uploads/" "" key in
  let keyParts := Text.split "-" keyWithoutPrefix in
  "job-" ++ Text.part 0 keyParts ++ "-" ++ Text.part 1 keyParts.

End Upload.

(* ------------------------------------------------------------------ *)
(** ** Manual retry and the debug routes *)

Module Admin.

Local Open Scope string_scope.

Inductive retry_response : Type :=
| RetryJobNotFound404
| OnlyFailedJobs400
| RetryInitiated200.

(** [SET status = 'processing', retry_count = 0, error_message = NULL,
     last_retry_at = NULL]. *)
Definition set_reset (r : Job.row) : Job.row :=
  {| Job.id := Job.id r; Job.filename := Job.filename r;
     Job.file_size := Job.file_size r; Job.file_type := Job.file_type r;
     Job.salad_job_id := Job.salad_job_id r;
     Job.status := Job.Processing;
     Job.transcription_data := Job.transcription_data r;
     Job.error_message := None;
     Job.retry_count := Some 0%Z; Job.last_retry_at := None;
     Job.created_at := Job.created_at r; Job.completed_at := Job.completed_at r;
     Job.processing_time_ms := Job.processing_time_ms r;
     Job.estimated_cost := Job.estimated_cost r |}.

(** The file key the retry route rebuilds from the stored row:
    [`uploads/${timestamp}-${jobIdPart}-${filename}`] with
    [timestamp] the text of [created_at]. *)
Definition retry_fileKey (created_at id filename : string) : string :=
  "uploads/" ++ created_at ++ "-" ++ Text.replace "job-" "" id ++ "-"
  ++ Text.underscore_spaces filename.

Section Retry.

(** The text stored in the [created_at] column for an instant. *)
Variable toISOString : Z -> string.

(** [app.post('/job/:jobId/retry')], on an authenticated request. *)
Definition job_retry (w : World) (now : Z) (jobId : string)
    (outcome : Worker.submit_outcome) (random : Q) : retry_response * World :=
  match Job.first_where_id jobId (db w) with
  | None => (RetryJobNotFound404, w)
  | Some result =>
      if negb (Job.status_eqb (Job.status result) Job.Error)
      then (OnlyFailedJobs400, w)
      else
        let w1 := with_db w (Job.update_where_id jobId set_reset (db w)) in
        let fileKey :=
          retry_fileKey (toISOString (Job.created_at result)) (Job.id result)
            (Job.filename result) in
        (RetryInitiated200,
         Worker.startTranscription w1 now jobId fileKey outcome random)
  end.

End Retry.

(** The answers of [app.post('/webhook/salad-debug')]:
    [{ success: true, debug: true }] and [{ error: 'Job not found' }]
    with status 404. *)
Inductive debug_response : Type :=
| DebugSuccess200
| DebugJobNotFound404.

(** [app.post('/webhook/salad-debug')], on a body that parsed. *)
Definition webhook_salad_debug (w : World) (now : Z)
    (payload : Salad.response) : debug_response * World :=
  match Job.first_where_salad_job_id (Salad.job_id payload) (db w) with
  | None => (DebugJobNotFound404, w)
  | Some result =>
      (DebugSuccess200,
       Worker.updateJobFromSalad w now (Job.id result) payload)
  end.

(** The [mockSaladData] of the manual completion route. *)
Definition mockSaladData (transcript saladJobId : option string)
    : Salad.response :=
  {| Salad.job_id :=
       match saladJobId with
       | Some s => if Js.str_truthy s then s else "manual-completion"
       | None => "manual-completion"
       end;
     Salad.status := "completed";
     Salad.transcript := transcript;
     Salad.segments := Some [];
     Salad.summary := Some "";
     Salad.sentiment := Some "";
     Salad.translation := Some "";
     Salad.captions := Some "";
     Salad.processing_time := Some 30%Q |}.

(** [app.post('/debug/complete-job/:jobId')]: the world it leaves; the
    route answers success whenever nothing throws. *)
Definition debug_complete_job (w : World) (now : Z) (jobId : string)
    (transcript saladJobId : option string) : World :=
  Worker.updateJobFromSalad w now jobId (mockSaladData transcript saladJobId).

End Admin.

(* ------------------------------------------------------------------ *)
(** ** Facts about the table operations *)

Section TableFacts.

Variable f : Job.row -> Job.row.
Hypothesis f_keeps_id : forall r, Job.id (f r) = Job.id r.

Lemma update_where_id_absent (jobId : string) (t : Job.table) :
  Job.first_where_id jobId t = None -> Job.update_where_id jobId f t = t.
Proof.
  unfold Job.first_where_id, Job.update_where_id.
  induction t as [|r t IH]; simpl; [reflexivity|].
  destruct (String.eqb (Job.id r) jobId); [discriminate|].
  intros H. now rewrite (IH H).
Qed.

Lemma first_where_id_update_same (jobId : string) (t : Job.table) :
  Job.first_where_id jobId (Job.update_where_id jobId f t)
  = option_map f (Job.first_where_id jobId t).
Proof.
  unfold Job.first_where_id, Job.update_where_id.
  induction t as [|r t IH]; simpl; [reflexivity|].
  destruct (String.eqb (Job.id r) jobId) eqn:E; simpl.
  - now rewrite f_keeps_id, E.
  - now rewrite E.
Qed.

Lemma first_where_id_update_other (jobId k : string) (t : Job.table) :
  jobId <> k ->
  Job.first_where_id k (Job.update_where_id jobId f t)
  = Job.first_where_id k t.
Proof.
  intros Hne. unfold Job.first_where_id, Job.update_where_id.
  induction t as [|r t IH]; simpl; [reflexivity|].
  destruct (String.eqb (Job.id r) jobId) eqn:E; simpl.
  - apply String.eqb_eq in E. rewrite f_keeps_id.
    destruct (String.eqb (Job.id r) k) eqn:Ek.
    + apply String.eqb_eq in Ek. congruence.
    + exact IH.
  - now rewrite IH.
Qed.

Lemma update_where_id_twice (g : Job.row -> Job.row) (jobId : string)
    (t : Job.table) :
  Job.update_where_id jobId g (Job.update_where_id jobId f t)
  = Job.update_where_id jobId (fun r => g (f r)) t.
Proof.
  unfold Job.update_where_id. rewrite map_map.
  apply map_ext. intros r.
  destruct (String.eqb (Job.id r) jobId) eqn:E.
  - now rewrite f_keeps_id, E.
  - now rewrite E.
Qed.

End TableFacts.

Lemma first_where_id_unique (t : Job.table) (r : Job.row) :
  NoDup (map Job.id t) -> In r t -> Job.first_where_id (Job.id r) t = Some r.
Proof.
  unfold Job.first_where_id.
  induction t as [|x t IH]; simpl; [intros _ []|].
  intros Hnd [->|Hin].
  - now rewrite String.eqb_refl.
  - inversion Hnd as [|? ? Hx Ht]; subst.
    destruct (String.eqb (Job.id x) (Job.id r)) eqn:E.
    + apply String.eqb_eq in E. exfalso. apply Hx. rewrite E.
      now apply in_map.
    + now apply IH.
Qed.

Lemma same_id_same_row (t : Job.table) (a b : Job.row) :
  NoDup (map Job.id t) -> In a t -> In b t -> Job.id a = Job.id b -> a = b.
Proof.
  intros Hnd Ha Hb Hid.
  pose proof (first_where_id_unique t a Hnd Ha) as Fa.
  pose proof (first_where_id_unique t b Hnd Hb) as Fb.
  rewrite Hid in Fa. congruence.
Qed.

Lemma in_insert_desc (r x : Job.row) (l : Job.table) :
  In x (Job.insert_desc r l) -> x = r \/ In x l.
Proof.
  induction l as [|y l IH]; simpl.
  - intros [<-|[]]. now left.
  - destruct (Job.created_at y <? Job.created_at r); simpl.
    + intros [<-|H]; [now left|now right].
    + intros [<-|H]; [right; now left|].
      destruct (IH H) as [->|Hl]; [now left|right; now right].
Qed.

Lemma in_order_by_created_at_desc (x : Job.row) (t : Job.table) :
  In x (Job.order_by_created_at_desc t) -> In x t.
Proof.
  unfold Job.order_by_created_at_desc.
  induction t as [|r t IH]; simpl; [tauto|].
  intros H. apply in_insert_desc in H. destruct H as [->|H]; auto.
Qed.

(** The setters of the four [UPDATE] statements leave the key alone. *)
Lemma set_completed_keeps_id td a c ms r :
  Job.id (Job.set_completed td a c ms r) = Job.id r.
Proof. reflexivity. Qed.

Lemma set_error_keeps_id msg r : Job.id (Job.set_error msg r) = Job.id r.
Proof. reflexivity. Qed.

Lemma set_retry_keeps_id n a msg r :
  Job.id (Job.set_retry n a msg r) = Job.id r.
Proof. reflexivity. Qed.

Lemma set_processing_keeps_id s r :
  Job.id (Job.set_processing s r) = Job.id r.
Proof. reflexivity. Qed.

(* ------------------------------------------------------------------ *)
(** ** What the reconciliation function does to the world *)

Lemma db_backupTranscriptToR2 w now jobId td d :
  db (Worker.backupTranscriptToR2 w now jobId td d) = db w.
Proof.
  unfold Worker.backupTranscriptToR2.
  now destruct (_ || _)%bool.
Qed.

Lemma db_sendToAirtable w now jobId d :
  db (Worker.sendToAirtable w now jobId d) = db w.
Proof.
  unfold Worker.sendToAirtable. simpl.
  now destruct (Job.first_where_id jobId (db w)).
Qed.

Lemma calls_emit w e :
  sendToAirtable_calls (emit w e)
  = (sendToAirtable_calls w + (if is_sendToAirtable e then 1 else 0))%nat.
Proof.
  unfold sendToAirtable_calls, emit. simpl.
  rewrite filter_app, length_app. simpl.
  now destruct (is_sendToAirtable e).
Qed.

Lemma calls_with_db w t : sendToAirtable_calls (with_db w t) = sendToAirtable_calls w.
Proof. reflexivity. Qed.

Lemma calls_backupTranscriptToR2 w now jobId td d :
  sendToAirtable_calls (Worker.backupTranscriptToR2 w now jobId td d)
  = sendToAirtable_calls w.
Proof.
  unfold Worker.backupTranscriptToR2.
  destruct (_ || _)%bool; rewrite !calls_emit; simpl; lia.
Qed.

Lemma calls_sendToAirtable w now jobId d :
  sendToAirtable_calls (Worker.sendToAirtable w now jobId d)
  = S (sendToAirtable_calls w).
Proof.
  unfold Worker.sendToAirtable.
  destruct (Job.first_where_id _ _); rewrite !calls_emit; simpl; lia.
Qed.

(** The completed branch, as one equation on the table and one on the
    number of notifier calls. *)
Lemma updateJobFromSalad_completed w now jobId d :
  Salad.status d = "completed"%string ->
  Js.opt_str_truthy (Salad.transcript d) = true ->
  db (Worker.updateJobFromSalad w now jobId d)
  = Job.update_where_id jobId
      (Job.set_completed (Worker.transcriptionData d) now
         (Worker.estimateCost
            (Js.num_div (Transcript.duration (Worker.transcriptionData d)) 60))
         (Salad.processing_time_or_0 d * 1000)%Q)
      (db w)
  /\ sendToAirtable_calls (Worker.updateJobFromSalad w now jobId d)
     = S (sendToAirtable_calls w).
Proof.
  intros Hs Ht. unfold Worker.updateJobFromSalad.
  rewrite Hs, Ht. simpl.
  rewrite db_sendToAirtable, db_backupTranscriptToR2.
  rewrite calls_sendToAirtable, calls_backupTranscriptToR2.
  split; reflexivity.
Qed.

Lemma updateJobFromSalad_failed w now jobId d :
  Salad.status d = "failed"%string ->
  Worker.updateJobFromSalad w now jobId d
  = with_db w
      (Job.update_where_id jobId (Job.set_error "Transcription failed") (db w)).
Proof.
  intros Hs. unfold Worker.updateJobFromSalad. now rewrite Hs.
Qed.

Lemma updateJobFromSalad_other w now jobId d :
  Salad.status d <> "failed"%string ->
  ~ (Salad.status d = "completed"%string
     /\ Js.opt_str_truthy (Salad.transcript d) = true) ->
  Worker.updateJobFromSalad w now jobId d = w.
Proof.
  intros Hf Hc. unfold Worker.updateJobFromSalad.
  destruct (String.eqb_spec (Salad.status d) "completed") as [Ec|Ec];
    destruct (Js.opt_str_truthy (Salad.transcript d)) eqn:Et; simpl;
    try (exfalso; apply Hc; now split);
    destruct (String.eqb_spec (Salad.status d) "failed") as [Ef|Ef];
    try reflexivity; contradiction.
Qed.

(* ------------------------------------------------------------------ *)
(** ** Reconciliation applied twice *)

(** C1, as stated, fails: in Scenario A, a second delivery of the same
    completed payload one second after the first leaves a different
    table (the row's [completed_at] moves) and calls [sendToAirtable] a
    second time. *)
Lemma updateJobFromSalad_twice_counterexample :
  let once :=
    Worker.updateJobFromSalad Sample.processing_world 1000 "job-1"
      Sample.completed in
  let twice := Worker.updateJobFromSalad once 2000 "job-1" Sample.completed in
  db twice <> db once /\ sendToAirtable_calls twice <> 1%nat.
Proof.
  intros once twice. split; intros H; vm_compute in H; discriminate H.
Qed.

(** C1, amended: two calls with the same completed payload leave the
    table in the state the later call alone produces (so in the state of
    the first call when both read the same clock), and every call
    invokes [sendToAirtable]: twice across the two calls. *)
Theorem updateJobFromSalad_twice (w : World) (now1 now2 : Z) (jobId : string)
    (saladData : Salad.response) :
  Salad.status saladData = "completed"%string ->
  Js.opt_str_truthy (Salad.transcript saladData) = true ->
  let once := Worker.updateJobFromSalad w now1 jobId saladData in
  let twice := Worker.updateJobFromSalad once now2 jobId saladData in
  db twice = db (Worker.updateJobFromSalad w now2 jobId saladData)
  /\ (now1 = now2 -> db twice = db once)
  /\ sendToAirtable_calls once = S (sendToAirtable_calls w)
  /\ sendToAirtable_calls twice = S (S (sendToAirtable_calls w)).
Proof.
  intros Hs Ht once twice. subst once twice.
  destruct (updateJobFromSalad_completed w now1 jobId saladData Hs Ht)
    as [D1 C1].
  destruct (updateJobFromSalad_completed w now2 jobId saladData Hs Ht)
    as [D2 _].
  destruct (updateJobFromSalad_completed
              (Worker.updateJobFromSalad w now1 jobId saladData)
              now2 jobId saladData Hs Ht) as [D12 C12].
  assert (E : db (Worker.updateJobFromSalad
                    (Worker.updateJobFromSalad w now1 jobId saladData)
                    now2 jobId saladData)
              = db (Worker.updateJobFromSalad w now2 jobId saladData)).
  { rewrite D12, D1, D2.
    rewrite update_where_id_twice by (intros; reflexivity).
    reflexivity. }
  repeat split.
  - exact E.
  - intros <-. exact E.
  - exact C1.
  - now rewrite C12, C1.
Qed.

Lemma updateJobFromSalad_twice_witness :
  let once :=
    Worker.updateJobFromSalad Sample.processing_world 1000 "job-1"
      Sample.completed in
  let twice := Worker.updateJobFromSalad once 2000 "job-1" Sample.completed in
  db twice
  = db (Worker.updateJobFromSalad Sample.processing_world 2000 "job-1"
          Sample.completed)
  /\ (1000 = 2000 -> db twice = db once)
  /\ sendToAirtable_calls once = 1%nat
  /\ sendToAirtable_calls twice = 2%nat.
Proof.
  exact (updateJobFromSalad_twice Sample.processing_world 1000 2000 "job-1"
           Sample.completed eq_refl eq_refl).
Defined.

(* ------------------------------------------------------------------ *)
(** ** Terminal jobs *)

Lemma updateJobFromSalad_other_id w now jobId d k :
  jobId <> k ->
  Job.first_where_id k (db (Worker.updateJobFromSalad w now jobId d))
  = Job.first_where_id k (db w).
Proof.
  intros Hne. unfold Worker.updateJobFromSalad.
  destruct (_ && _)%bool.
  - rewrite db_sendToAirtable, db_backupTranscriptToR2. simpl.
    now apply first_where_id_update_other.
  - destruct (String.eqb _ _); [|reflexivity]. simpl.
    now apply first_where_id_update_other.
Qed.

Lemma fix_stuck_job_other_id check now w job k :
  Job.id job <> k ->
  Job.first_where_id k (db (fst (Routes.fix_stuck_job check now w job)))
  = Job.first_where_id k (db w).
Proof.
  intros Hne. unfold Routes.fix_stuck_job.
  destruct (check _) as [s|]; [|reflexivity].
  destruct (_ || _)%bool; simpl.
  - now apply updateJobFromSalad_other_id.
  - destruct (String.eqb _ _); simpl; [|reflexivity].
    now apply first_where_id_update_other.
Qed.

Lemma fix_stuck_loop_other_id check now k (jobs : Job.table) :
  (forall j, In j jobs -> Job.id j <> k) ->
  forall w,
    Job.first_where_id k (db (snd (Routes.fix_stuck_loop check now jobs w)))
    = Job.first_where_id k (db w).
Proof.
  unfold Routes.fix_stuck_loop.
  intros Hjobs w.
  change w with (snd (@nil (string * Routes.sweep_action), w)) at 2.
  generalize (@nil (string * Routes.sweep_action), w). clear w.
  induction jobs as [|j jobs IH]; intros acc; simpl.
  - reflexivity.
  - rewrite IH by (intros; apply Hjobs; now right).
    pose proof (fix_stuck_job_other_id check now (snd acc) j k
                  (Hjobs j (or_introl eq_refl))) as Hstep.
    destruct (Routes.fix_stuck_job check now (snd acc) j) as [w' res].
    exact Hstep.
Qed.

Lemma stuckJobs_processing w now j :
  In j (Routes.stuckJobs w now) ->
  In j (db w) /\ Job.status j = Job.Processing.
Proof.
  unfold Routes.stuckJobs. intros H.
  apply in_order_by_created_at_desc in H.
  apply filter_In in H. destruct H as [Hin Hp]. split; [exact Hin|].
  apply andb_prop in Hp. destruct Hp as [Hp _].
  now destruct (Job.status j).
Qed.

Lemma job_status_not_processing check w now jobId job :
  Job.first_where_id jobId (db w) = Some job ->
  Job.status job <> Job.Processing ->
  Routes.job_status check w now jobId = (Routes.PollJob job, w).
Proof.
  intros Hf Hs. unfold Routes.job_status. rewrite Hf.
  destruct (Job.status job); try reflexivity. now elim Hs.
Qed.

(** C2, as stated, fails: a job already in the terminal status [error]
    that receives a webhook delivery of a completed result is rewritten
    to [completed]. *)
Lemma terminal_job_counterexample :
  let r := Sample.job Job.Error (Some "ext-1"%string) in
  let after :=
    snd (Routes.webhook_salad Sample.no_parse Sample.errored_world
           Sample.noon (Sample.delivery Sample.completed)) in
  Job.first_where_id "job-1" (db Sample.errored_world) = Some r
  /\ Job.terminal (Job.status r) = true
  /\ Job.first_where_id "job-1" (db after) <> Some r
  /\ option_map Job.status (Job.first_where_id "job-1" (db after))
     = Some Job.Completed.
Proof.
  repeat split; try reflexivity.
  intros H. vm_compute in H. discriminate H.
Qed.

(** C2, amended: the poll-driven status check and the sweep, which act
    only on jobs whose status is [processing], change no field of a job
    whose status is [completed] or [error] (job ids being unique). *)
Theorem terminal_job_untouched_by_poll_and_sweep
    (checkSaladStatus : string -> option Salad.response)
    (w : World) (now : Z) (r : Job.row) :
  NoDup (map Job.id (db w)) ->
  In r (db w) ->
  Job.terminal (Job.status r) = true ->
  Routes.job_status checkSaladStatus w now (Job.id r) = (Routes.PollJob r, w)
  /\ Job.first_where_id (Job.id r)
       (db (snd (Routes.fix_stuck_jobs checkSaladStatus w now)))
     = Some r.
Proof.
  intros Hnd Hin Hterm.
  pose proof (first_where_id_unique (db w) r Hnd Hin) as Hfind.
  split.
  - apply job_status_not_processing; [exact Hfind|].
    intros E. rewrite E in Hterm. discriminate Hterm.
  - unfold Routes.fix_stuck_jobs.
    rewrite fix_stuck_loop_other_id; [exact Hfind|].
    intros j Hj Hid. apply stuckJobs_processing in Hj.
    destruct Hj as [Hjin Hjs].
    assert (j = r) by (eapply same_id_same_row; eauto).
    subst j. rewrite Hjs in Hterm. discriminate Hterm.
Qed.

Lemma terminal_job_untouched_witness :
  let r := Sample.job Job.Error (Some "ext-1"%string) in
  Routes.job_status (Sample.salad_says Sample.completed) Sample.errored_world
    Sample.noon "job-1"
  = (Routes.PollJob r, Sample.errored_world)
  /\ Job.first_where_id "job-1"
       (db (snd (Routes.fix_stuck_jobs (Sample.salad_says Sample.completed)
                   Sample.errored_world Sample.noon)))
     = Some r.
Proof.
  apply (terminal_job_untouched_by_poll_and_sweep
           (Sample.salad_says Sample.completed) Sample.errored_world
           Sample.noon (Sample.job Job.Error (Some "ext-1"%string))).
  - simpl. constructor; [intros []|constructor].
  - simpl. left. reflexivity.
  - reflexivity.
Defined.

(* ------------------------------------------------------------------ *)
(** ** The retry loop *)

Lemma startTranscription_retryable w now jobId fileKey error random job :
  Worker.shouldRetryError error = true ->
  Job.first_where_id jobId (db w) = Some job ->
  Worker.currentRetryCount jobId (db w) < Worker.MAX_RETRY_ATTEMPTS ->
  let c := Worker.currentRetryCount jobId (db w) in
  let w' :=
    Worker.startTranscription w now jobId fileKey (Worker.SubmitThrows error)
      random in
  Job.first_where_id jobId (db w')
  = Some (Job.set_retry c now
            (Worker.retry_message (Worker.getRetryDelay c random) c) job)
  /\ Worker.currentRetryCount jobId (db w') = c
  /\ timers w'
     = timers w ++ [ {| timer_delay := Worker.getRetryDelay c random;
                        timer_jobId := jobId; timer_fileKey := fileKey |} ].
Proof.
  intros Hretry Hjob Hlt c w'. subst w'.
  unfold Worker.startTranscription. rewrite Hretry.
  apply Z.ltb_lt in Hlt. fold c in Hlt |- *. rewrite Hlt. simpl.
  unfold Worker.scheduleRetry. simpl.
  assert (F : Job.first_where_id jobId
                (Job.update_where_id jobId
                   (Job.set_retry c now
                      (Worker.retry_message (Worker.getRetryDelay c random) c))
                   (db w))
              = Some (Job.set_retry c now
                        (Worker.retry_message (Worker.getRetryDelay c random) c)
                        job)).
  { rewrite first_where_id_update_same by (intros; reflexivity).
    now rewrite Hjob. }
  repeat split.
  - exact F.
  - unfold Worker.currentRetryCount at 1. now rewrite F.
Qed.

(** C3 (the code departs from the claim): however many times in a row
    the submission fails with a retryable error, the job stays in
    [retry] with the retry count it started with, and one more timer is
    pending: the count is written back unchanged, so the limit of
    [MAX_RETRY_ATTEMPTS] is never reached and no final [error] is
    written. *)
Theorem retry_count_never_increases (error : Js.error) (clock : nat -> Z)
    (random : nat -> Q) (jobId fileKey : string) (w : World) (job : Job.row)
    (n : nat) :
  Worker.shouldRetryError error = true ->
  Job.first_where_id jobId (db w) = Some job ->
  Worker.currentRetryCount jobId (db w) < Worker.MAX_RETRY_ATTEMPTS ->
  timers w = [] ->
  let w' := Worker.failing_attempts error clock random jobId fileKey n w in
  option_map Job.status (Job.first_where_id jobId (db w')) = Some Job.Retry
  /\ option_map Job.retry_count (Job.first_where_id jobId (db w'))
     = Some (Some (Worker.currentRetryCount jobId (db w)))
  /\ List.length (timers w') = 1%nat.
Proof.
  intros Hretry Hjob Hlt Htimers. simpl.
  set (c := Worker.currentRetryCount jobId (db w)).
  assert (Inv :
    exists job' t,
      Job.first_where_id jobId
        (db (Worker.failing_attempts error clock random jobId fileKey n w))
      = Some job'
      /\ Job.status job' = Job.Retry
      /\ Job.retry_count job' = Some c
      /\ timers (Worker.failing_attempts error clock random jobId fileKey n w)
         = [t]
      /\ timer_jobId t = jobId /\ timer_fileKey t = fileKey).
  { induction n as [|k IH].
    - destruct (startTranscription_retryable w (clock O) jobId fileKey error
                  (random O) job Hretry Hjob Hlt) as (F & _ & T).
      cbn [Worker.failing_attempts]. eexists. eexists. split; [exact F|].
      rewrite T, Htimers. repeat split.
    - destruct IH as (job' & t & F & Hs & Hc & T & Tj & Tk).
      cbn [Worker.failing_attempts]. unfold Worker.fire_timer. rewrite T.
      set (w1 := {| db := db _; trace := trace _; timers := [] |}).
      assert (C1 : Worker.currentRetryCount jobId (db w1) = c).
      { unfold Worker.currentRetryCount. simpl. now rewrite F, Hc. }
      rewrite Tj, Tk.
      destruct (startTranscription_retryable w1 (clock (S k)) jobId fileKey
                  error (random (S k)) job' Hretry F) as (F' & _ & T').
      { rewrite C1. exact Hlt. }
      rewrite C1 in F'. rewrite C1 in T'.
      eexists. eexists. split; [exact F'|].
      rewrite T'. repeat split. }
  destruct Inv as (job' & t & F & Hs & Hc & T & _).
  rewrite F, T. simpl. now rewrite Hs, Hc.
Qed.

Lemma retry_count_never_increases_witness :
  let w' :=
    Worker.failing_attempts Sample.error503 (fun k => Z.of_nat k * 400000)
      (fun _ => 1 # 2) "job-1" "uploads/1-a-talk.mp3" 10 Sample.uploaded_world in
  option_map Job.status (Job.first_where_id "job-1" (db w')) = Some Job.Retry
  /\ option_map Job.retry_count (Job.first_where_id "job-1" (db w'))
     = Some (Some 0)
  /\ List.length (timers w') = 1%nat.
Proof.
  apply (retry_count_never_increases Sample.error503
           (fun k => Z.of_nat k * 400000) (fun _ => 1 # 2)
           "job-1" "uploads/1-a-talk.mp3" Sample.uploaded_world
           (Sample.job Job.Uploaded None) 10).
  - vm_compute. reflexivity.
  - reflexivity.
  - vm_compute. reflexivity.
  - reflexivity.
Defined.

(* ------------------------------------------------------------------ *)
(** ** Writes are keyed by the job id alone *)

(** C4, as stated, fails: a [failed] result applied to a job that is
    already [completed], which is no legal predecessor of any
    transition, rewrites the record to [error]. *)
Lemma conditional_write_counterexample :
  let r := Sample.job Job.Completed (Some "ext-1"%string) in
  let after :=
    Worker.updateJobFromSalad Sample.completed_world Sample.noon "job-1"
      Sample.failed in
  Job.first_where_id "job-1" (db Sample.completed_world) = Some r
  /\ Job.first_where_id "job-1" (db after) <> Some r
  /\ option_map Job.status (Job.first_where_id "job-1" (db after))
     = Some Job.Error.
Proof.
  repeat split; try reflexivity.
  intros H. vm_compute in H. discriminate H.
Qed.

(** C4, amended. The writes of [updateJobFromSalad], [startTranscription]
    and [scheduleRetry] are keyed by the job id and neither read nor
    verify the stored status. For the row with that id, whatever its
    status: a [failed] result writes [error] with [Transcription failed];
    a completed result with a transcript writes [completed] with its
    payload; a successful submission writes [processing] with the Salad
    job id; a failed submission writes [retry] or [error]. When no row
    has that id these operations leave the table as it is.
    A status is read before writing in three callers, which write
    nothing when it does not match: the status poll returns a job that
    is not [processing] as stored, the manual retry answers that only
    failed jobs can be retried for a job that is not in [error], and the
    sweep does not select a job that is not [processing] (job ids being
    unique). *)
Theorem transitions_write_whatever_the_status
    (toISOString : Z -> string)
    (checkSaladStatus : string -> option Salad.response)
    (w : World) (now : Z) (jobId : string) (saladData : Salad.response) :
  (forall r,
     Job.first_where_id jobId (db w) = Some r ->
     (Salad.status saladData = "failed"%string ->
      Job.first_where_id jobId
        (db (Worker.updateJobFromSalad w now jobId saladData))
      = Some (Job.set_error "Transcription failed" r))
     /\ (Salad.status saladData = "completed"%string ->
         Js.opt_str_truthy (Salad.transcript saladData) = true ->
         Job.first_where_id jobId
           (db (Worker.updateJobFromSalad w now jobId saladData))
         = Some (Job.set_completed (Worker.transcriptionData saladData) now
                   (Worker.estimateCost
                      (Js.num_div
                         (Transcript.duration
                            (Worker.transcriptionData saladData)) 60))
                   (Salad.processing_time_or_0 saladData * 1000)%Q r))
     /\ (forall fileKey saladJobId random,
           Job.first_where_id jobId
             (db (Worker.startTranscription w now jobId fileKey
                    (Worker.Submitted saladJobId) random))
           = Some (Job.set_processing saladJobId r))
     /\ (forall fileKey error random,
           exists r',
             Job.first_where_id jobId
               (db (Worker.startTranscription w now jobId fileKey
                      (Worker.SubmitThrows error) random))
             = Some r'
             /\ (Job.status r' = Job.Retry \/ Job.status r' = Job.Error)
             /\ Job.salad_job_id r' = Job.salad_job_id r
             /\ Job.transcription_data r' = Job.transcription_data r))
  /\ (Job.first_where_id jobId (db w) = None ->
      db (Worker.updateJobFromSalad w now jobId saladData) = db w
      /\ forall fileKey outcome random,
           db (Worker.startTranscription w now jobId fileKey outcome random)
           = db w)
  /\ (forall r,
        Job.first_where_id jobId (db w) = Some r ->
        (Job.status r <> Job.Processing ->
         Routes.job_status checkSaladStatus w now jobId
         = (Routes.PollJob r, w))
        /\ (Job.status r <> Job.Error ->
            forall outcome random,
              Admin.job_retry toISOString w now jobId outcome random
              = (Admin.OnlyFailedJobs400, w)))
  /\ (forall r,
        NoDup (map Job.id (db w)) ->
        In r (db w) ->
        Job.status r <> Job.Processing ->
        Job.first_where_id (Job.id r)
          (db (snd (Routes.fix_stuck_jobs checkSaladStatus w now)))
        = Some r).
Proof.
  split; [|split; [|split]].
  - intros r Hr. repeat split.
    + intros Hs. rewrite (updateJobFromSalad_failed w now jobId saladData Hs).
      simpl. rewrite first_where_id_update_same by (intros; reflexivity).
      now rewrite Hr.
    + intros Hs Ht.
      destruct (updateJobFromSalad_completed w now jobId saladData Hs Ht)
        as [D _].
      rewrite D.
      rewrite first_where_id_update_same by (intros; reflexivity).
      now rewrite Hr.
    + intros fileKey saladJobId random. simpl.
      rewrite first_where_id_update_same by (intros; reflexivity).
      now rewrite Hr.
    + intros fileKey error random. unfold Worker.startTranscription.
      destruct (_ && _)%bool.
      * unfold Worker.scheduleRetry. simpl.
        rewrite first_where_id_update_same by (intros; reflexivity).
        rewrite Hr. simpl. eexists. split; [reflexivity|].
        repeat split. now left.
      * simpl.
        rewrite first_where_id_update_same by (intros; reflexivity).
        rewrite Hr. simpl. eexists. split; [reflexivity|].
        repeat split. now right.
  - intros Hnone. split.
    + unfold Worker.updateJobFromSalad.
      destruct (_ && _)%bool.
      * rewrite db_sendToAirtable, db_backupTranscriptToR2. simpl.
        now apply update_where_id_absent.
      * destruct (String.eqb _ _); [|reflexivity]. simpl.
        now apply update_where_id_absent.
    + intros fileKey outcome random. unfold Worker.startTranscription.
      destruct outcome as [sid|error].
      * simpl. now apply update_where_id_absent.
      * destruct (_ && _)%bool.
        -- unfold Worker.scheduleRetry. simpl.
           now apply update_where_id_absent.
        -- simpl. now apply update_where_id_absent.
  - intros r Hr. split.
    + intros Hs. now apply job_status_not_processing.
    + intros Hs outcome random. unfold Admin.job_retry. rewrite Hr.
      destruct (Job.status r); try reflexivity. now elim Hs.
  - intros r Hnd Hin Hs.
    unfold Routes.fix_stuck_jobs.
    rewrite fix_stuck_loop_other_id.
    + now apply first_where_id_unique.
    + intros j Hj Hid. apply stuckJobs_processing in Hj.
      destruct Hj as [Hjin Hjs].
      assert (j = r) by (eapply same_id_same_row; eauto).
      subst j. contradiction.
Qed.

Lemma transitions_write_witness :
  Job.first_where_id "job-1"
    (db (Worker.updateJobFromSalad Sample.completed_world Sample.noon "job-1"
           Sample.failed))
  = Some (Job.set_error "Transcription failed"
            (Sample.job Job.Completed (Some "ext-1"%string)))
  /\ Admin.job_retry (fun _ => "2025-07-17T20:00:11.362Z"%string)
       Sample.completed_world Sample.noon "job-1" (Worker.Submitted "ext-2")
       (1 # 2)
     = (Admin.OnlyFailedJobs400, Sample.completed_world).
Proof.
  pose proof (transitions_write_whatever_the_status
                (fun _ => "2025-07-17T20:00:11.362Z"%string)
                (Sample.salad_says Sample.failed)
                Sample.completed_world Sample.noon "job-1" Sample.failed)
    as (A & _ & C & _).
  split.
  - exact (proj1 (A (Sample.job Job.Completed (Some "ext-1"%string)) eq_refl)
             eq_refl).
  - refine (proj2 (C (Sample.job Job.Completed (Some "ext-1"%string)) eq_refl)
              _ (Worker.Submitted "ext-2") (1 # 2)).
    discriminate.
Defined.

(* ------------------------------------------------------------------ *)
(** ** Backoff delay *)

(** The counts [startTranscription] hands to [scheduleRetry] are below
    [MAX_RETRY_ATTEMPTS]. Outside them the function itself departs from
    [min(base * 2^n + jitter, cap)]: at count 6 with a jitter of 500ms it
    returns 300500ms, because the cap is applied before the jitter is
    added. *)
Remark getRetryDelay_at_count_6 :
  let jitter := ((1 # 2) * 1000)%Q in
  let d := Worker.getRetryDelay 6 (1 # 2) in
  (d == 300500)%Q
  /\ ~ (d == Qmin (Worker.RETRY_DELAY_BASE_MS * 2 ^ 6 + jitter)
               Worker.RETRY_DELAY_MAX_MS)%Q.
Proof.
  cbv zeta. split.
  - reflexivity.
  - intros H. vm_compute in H. discriminate H.
Qed.

Lemma scheduled_exponential (n : Z) :
  0 <= n < Worker.MAX_RETRY_ATTEMPTS ->
  (5000 <= Worker.RETRY_DELAY_BASE_MS * 2 ^ n)%Q
  /\ (Worker.RETRY_DELAY_BASE_MS * 2 ^ n <= 20000)%Q.
Proof.
  unfold Worker.MAX_RETRY_ATTEMPTS. intros Hn.
  assert (Hcases : n = 0 \/ n = 1 \/ n = 2) by lia.
  destruct Hcases as [-> | [-> | ->]]; split; vm_compute; discriminate.
Qed.

(** C5: for every retry attempt [n] that is scheduled, that is for
    every count below [MAX_RETRY_ATTEMPTS], which are the only counts
    [startTranscription] hands on, and every jitter in [[0, 1000]], the
    delay is [min(base * 2^n + jitter, cap)] with base 5000ms and cap
    300000ms: it lies in [[base * 2^n, base * 2^n + 1000]] and does not
    exceed the cap. *)
Theorem getRetryDelay_bounds (random : Q) :
  (0 <= random)%Q ->
  (random <= 1)%Q ->
  (forall n : Z,
     0 <= n < Worker.MAX_RETRY_ATTEMPTS ->
     let jitter := (random * 1000)%Q in
     let d := Worker.getRetryDelay n random in
     (0 <= jitter)%Q /\ (jitter <= 1000)%Q
     /\ (d == Qmin (Worker.RETRY_DELAY_BASE_MS * 2 ^ n + jitter)
               Worker.RETRY_DELAY_MAX_MS)%Q
     /\ (Worker.RETRY_DELAY_BASE_MS * 2 ^ n <= d)%Q
     /\ (d <= Worker.RETRY_DELAY_BASE_MS * 2 ^ n + 1000)%Q
     /\ (d <= Worker.RETRY_DELAY_MAX_MS)%Q)
  /\ (forall (w : World) (now : Z) (jobId fileKey : string)
             (outcome : Worker.submit_outcome),
        let n := Worker.currentRetryCount jobId (db w) in
        let w' :=
          Worker.startTranscription w now jobId fileKey outcome random in
        timers w' = timers w
        \/ (n < Worker.MAX_RETRY_ATTEMPTS
            /\ timers w'
               = timers w
                 ++ [ {| timer_delay := Worker.getRetryDelay n random;
                         timer_jobId := jobId;
                         timer_fileKey := fileKey |} ])).
Proof.
  intros H0 H1. split.
  - intros n Hn jitter d.
    destruct (scheduled_exponential n Hn) as [Elo Ehi].
    assert (Hmax : (Worker.RETRY_DELAY_MAX_MS == 300000)%Q) by reflexivity.
    assert (Hj : (jitter == random * 1000)%Q) by reflexivity.
    assert (Hd : (d == Qmin (Worker.RETRY_DELAY_BASE_MS * 2 ^ n)
                          Worker.RETRY_DELAY_MAX_MS + jitter)%Q)
      by reflexivity.
    set (e := (Worker.RETRY_DELAY_BASE_MS * 2 ^ n)%Q) in *.
    assert (M1 : (Qmin e Worker.RETRY_DELAY_MAX_MS == e)%Q)
      by (apply Q.min_l; lra).
    assert (M2 : (Qmin (e + jitter) Worker.RETRY_DELAY_MAX_MS == e + jitter)%Q)
      by (apply Q.min_l; lra).
    clearbody e jitter d.
    repeat split; lra.
  - intros w now jobId fileKey outcome n w'. subst w'.
    unfold Worker.startTranscription.
    destruct outcome as [sid|error]; [now left|].
    fold n.
    destruct (Worker.shouldRetryError error); simpl; [|now left].
    destruct (Z.ltb_spec n Worker.MAX_RETRY_ATTEMPTS) as [Hlt|Hge];
      [|now left].
    right. split; [exact Hlt|reflexivity].
Qed.

Lemma getRetryDelay_bounds_witness :
  let d := Worker.getRetryDelay 2 (1 # 2) in
  (d == Qmin (Worker.RETRY_DELAY_BASE_MS * 2 ^ 2 + (1 # 2) * 1000)
          Worker.RETRY_DELAY_MAX_MS)%Q
  /\ (Worker.RETRY_DELAY_BASE_MS * 2 ^ 2 <= d)%Q
  /\ (d <= Worker.RETRY_DELAY_BASE_MS * 2 ^ 2 + 1000)%Q
  /\ (d <= Worker.RETRY_DELAY_MAX_MS)%Q.
Proof.
  assert (H0 : (0 <= 1 # 2)%Q) by (vm_compute; discriminate).
  assert (H1 : (1 # 2 <= 1)%Q) by (vm_compute; discriminate).
  assert (Hn : 0 <= 2 < Worker.MAX_RETRY_ATTEMPTS)
    by (vm_compute; split; [discriminate|reflexivity]).
  exact (proj2 (proj2 (proj1 (getRetryDelay_bounds (1 # 2) H0 H1) 2 Hn))).
Defined.

(* ------------------------------------------------------------------ *)
(** ** The webhook route: replay protection and job lookup *)

Section Webhook.

Variable Date_parse : string -> option Z.

(** The handler's decision, spelled out: stale deliveries are answered
    first, then unknown jobs, and only then is the result applied. *)
Lemma webhook_salad_cases (w : World) (now : Z) (req : Routes.webhook_request) :
  (Routes.webhook_salad Date_parse w now req = (Routes.WebhookExpired401, w)
   /\ Js.truthy (Routes.webhookTimestamp req) = true
   /\ exists t,
        Routes.date_getTime Date_parse (Routes.webhookTimestamp req) = Some t
        /\ Routes.maxAge < Z.abs (now - t))
  \/ (Routes.webhook_salad Date_parse w now req
      = match Job.first_where_salad_job_id (Salad.job_id (Routes.payload req))
                (db w) with
        | None => (Routes.JobNotFound404, w)
        | Some result =>
            (Routes.Success200,
             Worker.updateJobFromSalad w now (Job.id result)
               (Routes.payload req))
        end
      /\ (Js.truthy (Routes.webhookTimestamp req) = false
          \/ Routes.date_getTime Date_parse (Routes.webhookTimestamp req) = None
          \/ exists t,
               Routes.date_getTime Date_parse (Routes.webhookTimestamp req)
               = Some t
               /\ Z.abs (now - t) <= Routes.maxAge)).
Proof.
  unfold Routes.webhook_salad.
  destruct (Js.truthy (Routes.webhookTimestamp req)) eqn:Et.
  - destruct (Routes.date_getTime Date_parse (Routes.webhookTimestamp req))
      as [t|] eqn:Ed.
    + destruct (Z.ltb_spec Routes.maxAge (Z.abs (now - t))) as [Hlt|Hge].
      * left. repeat split. exists t. now split.
      * right. split; [reflexivity|]. right. right. exists t. now split.
    + right. split; [reflexivity|]. right. now left.
  - right. split; [reflexivity|]. now left.
Qed.

(** The value the replay check looks at is the first truthy one among
    the body's [timestamp], the body's [created_at] and the
    [x-webhook-timestamp] header. *)
Lemma webhookTimestamp_sources (req : Routes.webhook_request) (v : Js.value) :
  ((Js.truthy (Routes.timestamp req) = true /\ v = Routes.timestamp req)
   \/ (Js.truthy (Routes.timestamp req) = false
       /\ Js.truthy (Routes.created_at req) = true
       /\ v = Routes.created_at req)
   \/ (Js.truthy (Routes.timestamp req) = false
       /\ Js.truthy (Routes.created_at req) = false
       /\ exists h, Routes.x_webhook_timestamp req = Some h
                    /\ h <> ""%string /\ v = Js.Str h))
  <-> Js.truthy (Routes.webhookTimestamp req) = true
      /\ Routes.webhookTimestamp req = v.
Proof.
  unfold Routes.webhookTimestamp, Js.or_else.
  destruct (Js.truthy (Routes.timestamp req)) eqn:A.
  - rewrite A. split.
    + intros [[_ ->]|[[H _]|[H _]]];
        [now split|discriminate H|discriminate H].
    + intros [_ <-]. left. now split.
  - destruct (Js.truthy (Routes.created_at req)) eqn:B.
    + split.
      * intros [[H _]|[(_ & _ & ->)|(_ & H & _)]];
          [discriminate H|now split|discriminate H].
      * intros [_ <-]. right. left. now repeat split.
    + destruct (Routes.x_webhook_timestamp req) as [h|].
      * split.
        -- intros [[H _]|[(_ & H & _)|(_ & _ & h' & Hh & Hne & ->)]];
             try discriminate H.
           injection Hh as <-. split; [|reflexivity].
           destruct h; [now elim Hne|reflexivity].
        -- intros [Ht <-]. right. right. repeat split.
           exists h. repeat split. intros ->. discriminate Ht.
      * split.
        -- intros [[H _]|[(_ & H & _)|(_ & _ & h' & Hh & _)]];
             discriminate.
        -- intros [Ht _]. discriminate Ht.
Qed.

(** C6, amended: a delivery is answered with the expired response, and
    the world, the job table included, is left as it was (nothing is
    looked up or applied), whenever the first truthy value among the
    body's [timestamp], the body's [created_at] and the
    [x-webhook-timestamp] header denotes an instant more than 300
    seconds away from the clock. A source whose value is falsy (missing,
    0, the empty string, null, false) is passed over: when all three are
    falsy the delivery is never answered expired. *)
Theorem stale_webhook_rejected (w : World) (now : Z)
    (req : Routes.webhook_request) :
  (forall (v : Js.value) (webhookTime : Z),
     (Js.truthy (Routes.timestamp req) = true /\ v = Routes.timestamp req)
     \/ (Js.truthy (Routes.timestamp req) = false
         /\ Js.truthy (Routes.created_at req) = true
         /\ v = Routes.created_at req)
     \/ (Js.truthy (Routes.timestamp req) = false
         /\ Js.truthy (Routes.created_at req) = false
         /\ exists h, Routes.x_webhook_timestamp req = Some h
                      /\ h <> ""%string /\ v = Js.Str h) ->
     Routes.date_getTime Date_parse v = Some webhookTime ->
     300 * 1000 < Z.abs (now - webhookTime) ->
     Routes.webhook_salad Date_parse w now req
     = (Routes.WebhookExpired401, w))
  /\ (Js.truthy (Routes.timestamp req) = false ->
      Js.truthy (Routes.created_at req) = false ->
      Routes.x_webhook_timestamp req = None
      \/ Routes.x_webhook_timestamp req = Some ""%string ->
      fst (Routes.webhook_salad Date_parse w now req)
      <> Routes.WebhookExpired401).
Proof.
  split.
  - intros v webhookTime Hsrc Hd Hstale.
    apply webhookTimestamp_sources in Hsrc. destruct Hsrc as [Ht Hv].
    destruct (webhook_salad_cases w now req) as [[H _]|[_ H]]; [exact H|].
    exfalso. rewrite Hv in H. destruct H as [H|[H|(t & H & Hle)]].
    + rewrite <- Hv in H. congruence.
    + congruence.
    + assert (t = webhookTime) by congruence. subst t.
      unfold Routes.maxAge in Hle. lia.
  - intros A B C.
    destruct (webhook_salad_cases w now req) as [(_ & Ht & _)|[H _]].
    + exfalso. unfold Routes.webhookTimestamp, Js.or_else in Ht.
      rewrite A, B in Ht. destruct C as [C|C]; rewrite C in Ht;
        discriminate Ht.
    + rewrite H. destruct (Job.first_where_salad_job_id _ _); discriminate.
Qed.

(** C9, amended: when the body's [job_id] is the Salad job id of no
    stored job, the handler changes nothing, and it answers not-found
    whenever the replay check lets the delivery through; a delivery
    that is also stale is answered with the expired response. *)
Theorem unknown_job_webhook (w : World) (now : Z)
    (req : Routes.webhook_request) :
  Job.first_where_salad_job_id (Salad.job_id (Routes.payload req)) (db w)
  = None ->
  snd (Routes.webhook_salad Date_parse w now req) = w
  /\ (fst (Routes.webhook_salad Date_parse w now req)
      <> Routes.WebhookExpired401 ->
      Routes.webhook_salad Date_parse w now req = (Routes.JobNotFound404, w))
  /\ (Js.truthy (Routes.webhookTimestamp req) = false ->
      Routes.webhook_salad Date_parse w now req = (Routes.JobNotFound404, w))
  /\ (forall t,
        Routes.date_getTime Date_parse (Routes.webhookTimestamp req) = Some t ->
        Z.abs (now - t) <= 300 * 1000 ->
        Routes.webhook_salad Date_parse w now req
        = (Routes.JobNotFound404, w)).
Proof.
  intros Hnone.
  destruct (webhook_salad_cases w now req)
    as [(H & Ht & t & Hd & Hlt)|[H _]].
  - rewrite H. repeat split.
    + intros Hne. now elim Hne.
    + congruence.
    + intros t' Hd' Hle. assert (t' = t) by congruence. subst t'.
      unfold Routes.maxAge in Hlt. lia.
  - rewrite Hnone in H. rewrite H. repeat split.
Qed.

(** C10, amended: a delivery that carries no timestamp at all (no
    [timestamp] field, no [created_at] field, no header) skips the
    replay check and goes on to the lookup and to reconciliation. The
    expired response is given exactly when the first truthy value among
    the body's [timestamp], the body's [created_at] and the header
    denotes an instant (not NaN) more than 300 seconds away from the
    clock; a field that is there but falsy (0, the empty string, null,
    false) counts as absent. *)
Theorem replay_check_skipped_without_timestamp (w : World) (now : Z)
    (req : Routes.webhook_request) :
  (Routes.timestamp req = Js.Undefined ->
   Routes.created_at req = Js.Undefined ->
   Routes.x_webhook_timestamp req = None ->
   Routes.webhook_salad Date_parse w now req
   = match Job.first_where_salad_job_id (Salad.job_id (Routes.payload req))
             (db w) with
     | None => (Routes.JobNotFound404, w)
     | Some result =>
         (Routes.Success200,
          Worker.updateJobFromSalad w now (Job.id result) (Routes.payload req))
     end)
  /\ (fst (Routes.webhook_salad Date_parse w now req)
      = Routes.WebhookExpired401
      <-> exists (v : Js.value) (t : Z),
            ((Js.truthy (Routes.timestamp req) = true
              /\ v = Routes.timestamp req)
             \/ (Js.truthy (Routes.timestamp req) = false
                 /\ Js.truthy (Routes.created_at req) = true
                 /\ v = Routes.created_at req)
             \/ (Js.truthy (Routes.timestamp req) = false
                 /\ Js.truthy (Routes.created_at req) = false
                 /\ exists h, Routes.x_webhook_timestamp req = Some h
                              /\ h <> ""%string /\ v = Js.Str h))
            /\ Routes.date_getTime Date_parse v = Some t
            /\ 300 * 1000 < Z.abs (now - t)).
Proof.
  split.
  - intros H1 H2 H3.
    destruct (webhook_salad_cases w now req) as [(_ & Ht & _)|[H _]];
      [|exact H].
    unfold Routes.webhookTimestamp in Ht. rewrite H1, H2, H3 in Ht.
    discriminate Ht.
  - destruct (webhook_salad_cases w now req)
      as [(H & Ht & t & Hd & Hlt)|[H Hfresh]].
    + rewrite H. split; [|reflexivity].
      intros _. exists (Routes.webhookTimestamp req), t.
      split; [|now split].
      apply webhookTimestamp_sources. now split.
    + split.
      * rewrite H.
        destruct (Job.first_where_salad_job_id _ _); discriminate.
      * intros (v & t & Hsrc & Hd & Hlt). exfalso.
        apply webhookTimestamp_sources in Hsrc. destruct Hsrc as [Ht Hv].
        rewrite Hv in Hfresh.
        destruct Hfresh as [Hf|[Hf|(t' & Hd' & Hle)]].
        -- rewrite <- Hv in Hf. congruence.
        -- congruence.
        -- assert (t' = t) by congruence. subst t'.
           unfold Routes.maxAge in Hle. lia.
Qed.

End Webhook.

(** C6, as stated, fails: a body whose [timestamp] is the number 0
    carries an instant far more than 300 seconds before the clock, yet
    the check is skipped, the delivery is answered with success and the
    job is rewritten to [completed]. *)
Lemma stale_webhook_counterexample :
  let req :=
    {| Routes.timestamp := Js.Number 0; Routes.created_at := Js.Undefined;
       Routes.x_webhook_timestamp := None;
       Routes.payload := Sample.completed |} in
  let out :=
    Routes.webhook_salad Sample.no_parse Sample.processing_world Sample.noon
      req in
  Routes.date_getTime Sample.no_parse (Routes.timestamp req) = Some 0
  /\ 300 * 1000 < Z.abs (Sample.noon - 0)
  /\ fst out = Routes.Success200
  /\ map Job.status (db (snd out)) = [Job.Completed]
  /\ db (snd out) <> db Sample.processing_world.
Proof.
  repeat split.
  intros H. vm_compute in H. discriminate H.
Qed.

Lemma stale_webhook_rejected_witness :
  Routes.webhook_salad Sample.no_parse Sample.processing_world Sample.noon
    (Sample.old_delivery Sample.completed)
  = (Routes.WebhookExpired401, Sample.processing_world)
  /\ Routes.webhook_salad (fun _ => Some 1000) Sample.processing_world
       Sample.noon
       {| Routes.timestamp := Js.Null; Routes.created_at := Js.Str "";
          Routes.x_webhook_timestamp := Some "1000"%string;
          Routes.payload := Sample.completed |}
     = (Routes.WebhookExpired401, Sample.processing_world).
Proof.
  split.
  - refine (proj1 (stale_webhook_rejected Sample.no_parse
                     Sample.processing_world Sample.noon
                     (Sample.old_delivery Sample.completed))
              (Js.Number 1000) 1000 _ eq_refl _).
    + left. split; reflexivity.
    + vm_compute. reflexivity.
  - refine (proj1 (stale_webhook_rejected
                     (fun _ => Some 1000) Sample.processing_world Sample.noon
                     {| Routes.timestamp := Js.Null;
                        Routes.created_at := Js.Str "";
                        Routes.x_webhook_timestamp := Some "1000"%string;
                        Routes.payload := Sample.completed |})
              (Js.Str "1000") 1000 _ eq_refl _).
    + right. right. repeat split. exists "1000"%string.
      repeat split. discriminate.
    + vm_compute. reflexivity.
Defined.

(** C9, as stated, fails: a delivery for an unknown Salad job that is
    also stale is answered with the expired response, not with
    not-found. *)
Lemma unknown_job_webhook_counterexample :
  let req :=
    Sample.old_delivery (Sample.result "ext-404" "completed" (Some "hello"%string)) in
  Job.first_where_salad_job_id (Salad.job_id (Routes.payload req))
    (db Sample.processing_world) = None
  /\ fst (Routes.webhook_salad Sample.no_parse Sample.processing_world
            Sample.noon req)
     <> Routes.JobNotFound404.
Proof.
  split; [reflexivity|]. intros H. vm_compute in H. discriminate H.
Qed.

Lemma unknown_job_webhook_witness :
  let req :=
    Sample.delivery (Sample.result "ext-404" "completed" (Some "hello"%string)) in
  snd (Routes.webhook_salad Sample.no_parse Sample.processing_world
         Sample.noon req) = Sample.processing_world
  /\ Routes.webhook_salad Sample.no_parse Sample.processing_world
       Sample.noon req
     = (Routes.JobNotFound404, Sample.processing_world).
Proof.
  pose proof (unknown_job_webhook Sample.no_parse Sample.processing_world
                Sample.noon
                (Sample.delivery
                   (Sample.result "ext-404" "completed" (Some "hello"%string)))
                eq_refl) as (H1 & _ & H3 & _).
  split; [exact H1|exact (H3 eq_refl)].
Defined.

(** C10, as stated, fails: a body whose [created_at] is the number 0
    has a timestamp field, and that instant is far more than 300
    seconds before the clock, yet the delivery is not rejected. *)
Lemma replay_check_counterexample :
  let req :=
    {| Routes.timestamp := Js.Undefined; Routes.created_at := Js.Number 0;
       Routes.x_webhook_timestamp := None;
       Routes.payload := Sample.completed |} in
  Routes.created_at req <> Js.Undefined
  /\ Routes.date_getTime Sample.no_parse (Routes.created_at req) = Some 0
  /\ 300 * 1000 < Z.abs (Sample.noon - 0)
  /\ fst (Routes.webhook_salad Sample.no_parse Sample.processing_world
            Sample.noon req)
     <> Routes.WebhookExpired401.
Proof.
  repeat split; discriminate.
Qed.

Lemma replay_check_skipped_witness :
  Routes.webhook_salad Sample.no_parse Sample.processing_world Sample.noon
    (Sample.delivery Sample.completed)
  = (Routes.Success200,
     Worker.updateJobFromSalad Sample.processing_world Sample.noon "job-1"
       Sample.completed)
  /\ fst (Routes.webhook_salad Sample.no_parse Sample.processing_world
            Sample.noon
            {| Routes.timestamp := Js.Number 0;
               Routes.created_at := Js.Number 1000;
               Routes.x_webhook_timestamp := None;
               Routes.payload := Sample.completed |})
     = Routes.WebhookExpired401.
Proof.
  split.
  - exact (proj1 (replay_check_skipped_without_timestamp Sample.no_parse
                    Sample.processing_world Sample.noon
                    (Sample.delivery Sample.completed))
             eq_refl eq_refl eq_refl).
  - apply (proj2 (replay_check_skipped_without_timestamp Sample.no_parse
                    Sample.processing_world Sample.noon
                    {| Routes.timestamp := Js.Number 0;
                       Routes.created_at := Js.Number 1000;
                       Routes.x_webhook_timestamp := None;
                       Routes.payload := Sample.completed |})).
    exists (Js.Number 1000), 1000. split; [|split].
    + right. left. repeat split.
    + reflexivity.
    + vm_compute. reflexivity.
Defined.

(* ------------------------------------------------------------------ *)
(** ** The sweep against the webhook *)

(** C7, as stated, fails: for a [failed] result the sweep writes its own
    message, so the table it leaves differs from the table the webhook
    route leaves for the same result. *)
Lemma sweep_failed_counterexample :
  let sweep :=
    snd (Routes.fix_stuck_jobs (Sample.salad_says Sample.failed)
           Sample.processing_world Sample.noon) in
  let hook :=
    snd (Routes.webhook_salad Sample.no_parse Sample.processing_world
           Sample.noon (Sample.delivery Sample.failed)) in
  db sweep <> db hook
  /\ map Job.error_message (db sweep) = [Some "Job failed at Salad"%string]
  /\ map Job.error_message (db hook) = [Some "Transcription failed"%string].
Proof.
  repeat split; try reflexivity.
  intros H. vm_compute in H. discriminate H.
Qed.

(** C7, amended: for a result whose status is [completed] (or
    [succeeded]) the sweep calls [updateJobFromSalad], so the world it
    leaves is the world the webhook route leaves for the same result.
    For a [failed] result the sweep does not call it: it writes
    [error] itself with the message [Job failed at Salad], where the
    webhook route writes [error] with [Transcription failed]; the two
    tables agree on every other field. *)
Theorem sweep_against_webhook (Date_parse : string -> option Z)
    (checkSaladStatus : string -> option Salad.response)
    (w : World) (now : Z) (job : Job.row) (saladStatus : Salad.response)
    (req : Routes.webhook_request) :
  checkSaladStatus
    (match Job.salad_job_id job with Some s => s | None => "null"%string end)
  = Some saladStatus ->
  Routes.payload req = saladStatus ->
  fst (Routes.webhook_salad Date_parse w now req) <> Routes.WebhookExpired401 ->
  option_map Job.id
    (Job.first_where_salad_job_id (Salad.job_id saladStatus) (db w))
  = Some (Job.id job) ->
  let sweep := fst (Routes.fix_stuck_job checkSaladStatus now w job) in
  let hook := snd (Routes.webhook_salad Date_parse w now req) in
  (Salad.status saladStatus = "completed"%string
   \/ Salad.status saladStatus = "succeeded"%string ->
   sweep = hook)
  /\ (Salad.status saladStatus = "failed"%string ->
      sweep
      = with_db w
          (Job.update_where_id (Job.id job)
             (Job.set_error "Job failed at Salad") (db w))
      /\ hook
         = with_db w
             (Job.update_where_id (Job.id job)
                (Job.set_error "Transcription failed") (db w))).
Proof.
  intros Hcheck Hpayload Hfresh Hlookup sweep hook.
  assert (Hhook : hook
                  = Worker.updateJobFromSalad w now (Job.id job) saladStatus).
  { subst hook.
    destruct (webhook_salad_cases Date_parse w now req) as [[H _]|[H _]].
    - rewrite H in Hfresh. now elim Hfresh.
    - rewrite H, Hpayload.
      destruct (Job.first_where_salad_job_id _ _) as [result|];
        [|discriminate Hlookup].
      simpl in Hlookup. injection Hlookup as ->. reflexivity. }
  subst sweep. unfold Routes.fix_stuck_job. rewrite Hcheck, Hhook.
  split.
  - intros [Hs|Hs]; rewrite Hs; reflexivity.
  - intros Hs. rewrite Hs. simpl. split; [reflexivity|].
    now apply updateJobFromSalad_failed.
Qed.

Lemma sweep_against_webhook_witness :
  fst (Routes.fix_stuck_job (Sample.salad_says Sample.completed) Sample.noon
         Sample.processing_world
         (Sample.job Job.Processing (Some "ext-1"%string)))
  = snd (Routes.webhook_salad Sample.no_parse Sample.processing_world
           Sample.noon (Sample.delivery Sample.completed)).
Proof.
  refine (proj1 (sweep_against_webhook Sample.no_parse
                   (Sample.salad_says Sample.completed)
                   Sample.processing_world Sample.noon
                   (Sample.job Job.Processing (Some "ext-1"%string))
                   Sample.completed (Sample.delivery Sample.completed)
                   eq_refl eq_refl _ eq_refl)
            (or_introl eq_refl)).
  vm_compute. discriminate.
Defined.

(* ------------------------------------------------------------------ *)
(** ** Results that are not terminal *)

(** C8: a result that is neither [failed] nor [completed] with a
    transcript makes [updateJobFromSalad] return the world as it was
    (no row is written, nothing is sent); and a poll of a job for which
    the Salad API reports such a result, [processing] in particular,
    answers with the stored job and leaves the world as it was. *)
Theorem non_terminal_result_changes_nothing
    (checkSaladStatus : string -> option Salad.response)
    (w : World) (now : Z) (jobId : string) (saladData : Salad.response) :
  Salad.status saladData <> "failed"%string ->
  ~ (Salad.status saladData = "completed"%string
     /\ Js.opt_str_truthy (Salad.transcript saladData) = true) ->
  Worker.updateJobFromSalad w now jobId saladData = w
  /\ (forall job saladJobId,
        Job.first_where_id jobId (db w) = Some job ->
        Job.salad_job_id job = Some saladJobId ->
        checkSaladStatus saladJobId = Some saladData ->
        Routes.job_status checkSaladStatus w now jobId
        = (Routes.PollJob job, w)).
Proof.
  intros Hf Hc.
  pose proof (updateJobFromSalad_other w now jobId saladData Hf Hc) as Hnoop.
  split; [exact Hnoop|].
  intros job saladJobId Hjob Hsid Hcheck.
  unfold Routes.job_status. rewrite Hjob, Hsid.
  destruct (_ && _)%bool; [|reflexivity].
  rewrite Hcheck.
  destruct (negb _); [|reflexivity].
  rewrite Hnoop, Hjob. now destruct job.
Qed.

Lemma non_terminal_result_witness :
  Worker.updateJobFromSalad Sample.processing_world Sample.noon "job-1"
    Sample.still_processing
  = Sample.processing_world
  /\ Routes.job_status (Sample.salad_says Sample.still_processing)
       Sample.processing_world Sample.noon "job-1"
     = (Routes.PollJob (Sample.job Job.Processing (Some "ext-1"%string)),
        Sample.processing_world).
Proof.
  pose proof (non_terminal_result_changes_nothing
                (Sample.salad_says Sample.still_processing)
                Sample.processing_world Sample.noon "job-1"
                Sample.still_processing) as H.
  destruct H as [H1 H2].
  - vm_compute. discriminate.
  - intros [E _]. vm_compute in E. discriminate E.
  - split; [exact H1|].
    exact (H2 (Sample.job Job.Processing (Some "ext-1"%string)) "ext-1"%string
             eq_refl eq_refl eq_refl).
Defined.

(* ------------------------------------------------------------------ *)
(** ** The scenarios of the specification, run on the model *)

(** Scenario A: the webhook delivers the completed result of [ext-1];
    the job becomes [completed], its text is [hello], [completed_at] is
    the clock reading, and the notifier has been called once. *)
Example scenario_A :
  let out :=
    Routes.webhook_salad Sample.no_parse Sample.processing_world Sample.noon
      (Sample.delivery Sample.completed) in
  fst out = Routes.Success200
  /\ map (fun r => (Job.status r,
                    option_map Transcript.text (Job.transcription_data r),
                    Job.completed_at r))
       (db (snd out))
     = [(Job.Completed, Some "hello"%string, Some Sample.noon)]
  /\ sendToAirtable_calls (snd out) = 1%nat.
Proof. repeat split. Qed.

(** Scenario B on the code: the first failure with a 503 schedules a
    retry that stores the count 0 and announces attempt 1 of 3. *)
Example scenario_B_first_failure :
  map (fun r => (Job.status r, Job.retry_count r, Job.error_message r))
    (db (Worker.startTranscription Sample.uploaded_world Sample.noon "job-1"
           "uploads/1-a-talk.mp3" (Worker.SubmitThrows Sample.error503)
           (1 # 2)))
  = [(Job.Retry, Some 0, Some "Retrying in 6 seconds (attempt 1/3)"%string)].
Proof. vm_compute. reflexivity. Qed.

(** Were the stored count ever 3, the same failure would be final and
    the message would cite the three attempts. *)
Example exhausted_message :
  Worker.final_error_message 3 Sample.error503
  = "Failed after 3 retry attempts: Error: Salad API error: 503"%string.
Proof. reflexivity. Qed.

(** A validation error is not retried. *)
Example non_retryable_is_final :
  map (fun r => (Job.status r, Job.error_message r))
    (db (Worker.startTranscription Sample.uploaded_world Sample.noon "job-1"
           "uploads/1-a-talk.mp3"
           (Worker.SubmitThrows (Js.mkError "Error" "Salad API error: 400"))
           (1 # 2)))
  = [(Job.Error,
      Some "Non-retryable error: Error: Salad API error: 400"%string)].
Proof. vm_compute. reflexivity. Qed.

(** Scenario D on the code: a webhook delivery and a sweep that both
    carry the completed result call the notifier once each. *)
Example scenario_D :
  let after_hook :=
    snd (Routes.webhook_salad Sample.no_parse Sample.processing_world
           Sample.noon (Sample.delivery Sample.completed)) in
  let after_both :=
    fst (Routes.fix_stuck_job (Sample.salad_says Sample.completed)
           (Sample.noon + 1) after_hook
           (Sample.job Job.Processing (Some "ext-1"%string))) in
  sendToAirtable_calls after_both = 2%nat.
Proof. vm_compute. reflexivity. Qed.

(* ------------------------------------------------------------------ *)
(** ** Cost and duration estimates *)

(** X1: for finite durations [estimateCost] returns a whole number of
    cents, not negative when the duration is not, and it does not
    decrease when the duration grows. *)
Theorem estimateCost_whole_cents (d d' : Q) :
  exists cents cents' : Z,
    Worker.estimateCost (Js.Fin d) = Js.Fin (inject_Z cents / 100)%Q
    /\ Worker.estimateCost (Js.Fin d') = Js.Fin (inject_Z cents' / 100)%Q
    /\ ((0 <= d)%Q -> 0 <= cents)
    /\ ((d <= d')%Q -> cents <= cents').
Proof.
  exists (Js.round (d * Worker.COST_PER_MINUTE * 100)),
         (Js.round (d' * Worker.COST_PER_MINUTE * 100)).
  split; [reflexivity|]. split; [reflexivity|].
  unfold Js.round, Worker.COST_PER_MINUTE. split.
  - intros Hd.
    assert (H0 : (inject_Z 0 <= d * (4 # 1000) * 100 + (1 # 2))%Q)
      by (change (inject_Z 0) with 0%Q; lra).
    apply Qfloor_resp_le in H0. now rewrite Qfloor_Z in H0.
  - intros Hle. apply Qfloor_resp_le. lra.
Qed.

Lemma bitsPerSecond_positive (ext : string) : (0 < Files.bitsPerSecond ext)%Q.
Proof.
  unfold Files.bitsPerSecond.
  destruct (String.eqb ext "mp3"); [reflexivity|].
  destruct (_ || _)%bool; [reflexivity|].
  destruct (_ || _)%bool; [reflexivity|].
  destruct (String.eqb ext "ogg"); reflexivity.
Qed.

(** X2: the estimated duration is never below a tenth of a minute,
    never below the duration the bit rate gives, and it does not
    decrease when the file grows. *)
Theorem estimateAudioDuration_bounds (fileSize fileSize' : Q)
    (filename : string) :
  (1 # 10 <= Files.estimateAudioDuration fileSize filename)%Q
  /\ (fileSize * 8 / Files.bitsPerSecond (Files.extension filename) / 60
      <= Files.estimateAudioDuration fileSize filename)%Q
  /\ ((fileSize <= fileSize')%Q ->
      (Files.estimateAudioDuration fileSize filename
       <= Files.estimateAudioDuration fileSize' filename)%Q).
Proof.
  unfold Files.estimateAudioDuration.
  set (bps := Files.bitsPerSecond (Files.extension filename)).
  repeat split.
  - apply Q.le_max_r.
  - apply Q.le_max_l.
  - intros Hle. apply Q.max_le_compat_r.
    assert (Hinv : (0 < / bps)%Q)
      by (apply Qinv_lt_0_compat, bitsPerSecond_positive).
    unfold Qdiv.
    apply Qmult_le_compat_r; [|discriminate].
    apply Qmult_le_compat_r; [lra|lra].
Qed.

Lemma estimateAudioDuration_bounds_witness :
  (Files.estimateAudioDuration 1000 "a.mp3"
   <= Files.estimateAudioDuration 5000000 "a.mp3")%Q.
Proof.
  apply (estimateAudioDuration_bounds 1000 5000000 "a.mp3").
  vm_compute. discriminate.
Defined.

(* ------------------------------------------------------------------ *)
(** ** File extensions *)

Lemma toLowerCase_app (a b : string) :
  Js.toLowerCase (a ++ b) = (Js.toLowerCase a ++ Js.toLowerCase b)%string.
Proof. induction a as [|c a IH]; simpl; [reflexivity|now rewrite IH]. Qed.

Lemma lower_ascii_dot (c : ascii) :
  Ascii.eqb (Js.lower_ascii c) "." = Ascii.eqb c ".".
Proof. destruct c as [[] [] [] [] [] [] [] []]; reflexivity. Qed.

Lemma split_not_nil (sep : ascii) (s : string) : Text.split sep s <> [].
Proof.
  destruct s as [|c s]; simpl; [discriminate|].
  destruct (Ascii.eqb c sep); [discriminate|].
  destruct (Text.split sep s); discriminate.
Qed.

Lemma split_app_sep (sep : ascii) (a b : string) :
  Text.split sep (a ++ String sep b) = Text.split sep a ++ Text.split sep b.
Proof.
  induction a as [|c a IH]; simpl.
  - now rewrite Ascii.eqb_refl.
  - destruct (Ascii.eqb c sep); [now rewrite IH|].
    rewrite IH.
    destruct (Text.split sep a) as [|h t] eqn:E; [|reflexivity].
    now elim (split_not_nil sep a).
Qed.

Lemma split_without_sep (sep : ascii) (s : string) :
  ~ In sep (list_ascii_of_string s) -> Text.split sep s = [s].
Proof.
  induction s as [|c s IH]; simpl; [reflexivity|].
  intros Hnot.
  destruct (Ascii.eqb_spec c sep) as [->|Hne].
  - elim Hnot. now left.
  - rewrite IH; [reflexivity|]. intros Hin. apply Hnot. now right.
Qed.

Lemma pop_app (l1 l2 : list string) :
  l2 <> [] -> Text.pop (l1 ++ l2) = Text.pop l2.
Proof.
  unfold Text.pop. intros Hne.
  induction l1 as [|x l1 IH]; [reflexivity|].
  simpl. destruct (l1 ++ l2) eqn:E; [|exact IH].
  apply app_eq_nil in E. now destruct E.
Qed.

Lemma toLowerCase_keeps_no_dot (s : string) :
  ~ In "."%char (list_ascii_of_string s) ->
  ~ In "."%char (list_ascii_of_string (Js.toLowerCase s)).
Proof.
  induction s as [|c s IH]; simpl; [tauto|].
  intros Hnot [Hc|Hin].
  - apply Hnot. left.
    apply Ascii.eqb_eq. rewrite <- lower_ascii_dot.
    now apply Ascii.eqb_eq.
  - apply IH; [|exact Hin]. intros H. apply Hnot. now right.
Qed.

(** X3: what the type check and the duration estimate read of a file
    name is the text after its last dot, lower-cased; a name without a
    dot is its own extension, so the bare name [mp3] passes the check. *)
Theorem extension_is_text_after_last_dot (base ext : string) :
  ~ In "."%char (list_ascii_of_string ext) ->
  Files.extension (base ++ "." ++ ext) = Js.toLowerCase ext
  /\ Files.extension ext = Js.toLowerCase ext
  /\ Files.validateFileType (base ++ "." ++ ext) = Files.validateFileType ext
  /\ forall fileSize,
       Files.estimateAudioDuration fileSize (base ++ "." ++ ext)
       = Files.estimateAudioDuration fileSize ext.
Proof.
  intros Hnot.
  assert (E2 : Files.extension ext = Js.toLowerCase ext).
  { unfold Files.extension.
    rewrite split_without_sep by now apply toLowerCase_keeps_no_dot.
    reflexivity. }
  assert (E1 : Files.extension (base ++ "." ++ ext) = Js.toLowerCase ext).
  { unfold Files.extension at 1. rewrite toLowerCase_app. simpl.
    change (String (Js.lower_ascii ".") (Js.toLowerCase ext))
      with (String "." (Js.toLowerCase ext)).
    rewrite split_app_sep, pop_app by apply split_not_nil.
    exact E2. }
  repeat split; try assumption.
  - unfold Files.validateFileType. now rewrite E1, E2.
  - intros fileSize. unfold Files.estimateAudioDuration. now rewrite E1, E2.
Qed.

Lemma extension_is_text_after_last_dot_witness :
  Files.extension ("Talk.Final" ++ "." ++ "MP3") = "mp3"%string
  /\ Files.validateFileType "MP3" = true.
Proof.
  destruct (extension_is_text_after_last_dot "Talk.Final" "MP3") as (H1 & _).
  - simpl. intros [H|[H|[H|[]]]]; discriminate H.
  - split; [exact H1|reflexivity].
Defined.

(* ------------------------------------------------------------------ *)
(** ** SRT time stamps *)

Lemma trunc_is_floor (q : Q) : (0 <= q)%Q -> Js.trunc q = Qfloor q.
Proof.
  destruct q as [n d]. unfold Qle, Js.trunc, Qfloor. simpl.
  intros H. apply Z.quot_div_nonneg; lia.
Qed.

Lemma floor_bounds (x : Q) :
  (inject_Z (Qfloor x) <= x)%Q /\ (x < inject_Z (Qfloor x) + 1)%Q.
Proof.
  split; [apply Qfloor_le|].
  pose proof (Qlt_floor x) as H. now rewrite inject_Z_plus in H.
Qed.

Lemma between_same (a b : Z) (x : Q) :
  (inject_Z a <= x)%Q -> (x < inject_Z a + 1)%Q ->
  (inject_Z b <= x)%Q -> (x < inject_Z b + 1)%Q ->
  a = b.
Proof.
  intros Ha1 Ha2 Hb1 Hb2.
  assert (H1 : (inject_Z a < inject_Z (b + 1))%Q)
    by (rewrite inject_Z_plus; change (inject_Z 1) with 1%Q; lra).
  assert (H2 : (inject_Z b < inject_Z (a + 1))%Q)
    by (rewrite inject_Z_plus; change (inject_Z 1) with 1%Q; lra).
  rewrite <- Zlt_Qlt in H1, H2. lia.
Qed.

Lemma pad2_length (z : Z) :
  0 <= z < 100 ->
  String.length (Text.padStart 2 "0" (Js.string_of_Z z)) = 2%nat.
Proof.
  intros Hz.
  assert (H : forallb
                (fun n => Nat.eqb
                            (String.length
                               (Text.padStart 2 "0"
                                  (Js.string_of_Z (Z.of_nat n)))) 2)
                (seq 0 100) = true) by (vm_compute; reflexivity).
  rewrite forallb_forall in H.
  specialize (H (Z.to_nat z)). rewrite Z2Nat.id in H by lia.
  apply Nat.eqb_eq, H, in_seq. lia.
Qed.

Lemma pad3_length (z : Z) :
  0 <= z < 1000 ->
  String.length (Text.padStart 3 "0" (Js.string_of_Z z)) = 3%nat.
Proof.
  intros Hz.
  assert (H : forallb
                (fun n => Nat.eqb
                            (String.length
                               (Text.padStart 3 "0"
                                  (Js.string_of_Z (Z.of_nat n)))) 3)
                (seq 0 1000) = true) by (vm_compute; reflexivity).
  rewrite forallb_forall in H.
  specialize (H (Z.to_nat z)). rewrite Z2Nat.id in H by lia.
  apply Nat.eqb_eq, H, in_seq. lia.
Qed.

Lemma string_length_app (a b : string) :
  String.length (a ++ b) = (String.length a + String.length b)%nat.
Proof. induction a as [|c a IH]; simpl; [reflexivity|now rewrite IH]. Qed.

(** The four printed numbers, bracketed. *)
Lemma srt_fields (seconds : Q) :
  (0 <= seconds)%Q ->
  let h := inject_Z (Srt.hrs seconds) in
  let m := inject_Z (Srt.mins seconds) in
  let s := inject_Z (Srt.secs seconds) in
  let f := inject_Z (Srt.ms seconds) in
  (3600 * h <= seconds)%Q /\ (seconds < 3600 * h + 3600)%Q
  /\ (3600 * h + 60 * m <= seconds)%Q
  /\ (seconds < 3600 * h + 60 * m + 60)%Q
  /\ (3600 * h + 60 * m + s <= seconds)%Q
  /\ (seconds < 3600 * h + 60 * m + s + 1)%Q
  /\ ((3600 * h + 60 * m + s) * 1000 + f <= seconds * 1000)%Q
  /\ (seconds * 1000 < (3600 * h + 60 * m + s) * 1000 + f + 1)%Q.
Proof.
  intros H0. unfold Srt.hrs, Srt.mins, Srt.secs, Srt.ms, Text.rem.
  assert (D1 : (seconds / 3600 == seconds * (1 # 3600))%Q) by reflexivity.
  assert (D2 : (seconds / 60 == seconds * (1 # 60))%Q) by reflexivity.
  assert (D3 : (seconds / 1 == seconds)%Q) by (unfold Qdiv; change (/ 1)%Q with 1%Q; ring).
  rewrite !trunc_is_floor by (rewrite ?D1, ?D2, ?D3; lra).
  set (H := Qfloor (seconds / 3600)).
  set (K := Qfloor (seconds / 60)).
  set (F := Qfloor (seconds / 1)).
  destruct (floor_bounds (seconds / 3600)) as [H1 H2]. fold H in H1, H2.
  destruct (floor_bounds (seconds / 60)) as [K1 K2]. fold K in K1, K2.
  destruct (floor_bounds (seconds / 1)) as [F1 F2]. fold F in F1, F2.
  rewrite D1 in H1, H2. rewrite D2 in K1, K2. rewrite D3 in F1, F2.
  set (r1 := (seconds - 3600 * inject_Z H)%Q).
  set (r2 := (seconds - 60 * inject_Z K)%Q).
  set (r3 := (seconds - 1 * inject_Z F)%Q).
  destruct (floor_bounds (r1 / 60)) as [M1 M2].
  destruct (floor_bounds r2) as [S1 S2].
  destruct (floor_bounds (r3 * 1000)) as [T1 T2].
  set (M := Qfloor (r1 / 60)) in *.
  set (S := Qfloor r2) in *.
  set (T := Qfloor (r3 * 1000)) in *.
  assert (D4 : (r1 / 60 == r1 * (1 # 60))%Q) by reflexivity.
  rewrite D4 in M1, M2.
  assert (R1 : (r1 == seconds - 3600 * inject_Z H)%Q) by reflexivity.
  assert (R2 : (r2 == seconds - 60 * inject_Z K)%Q) by reflexivity.
  assert (R3 : (r3 == seconds - 1 * inject_Z F)%Q) by reflexivity.
  clearbody r1 r2 r3 M S T H K F.
  assert (EK : K = 60 * H + M).
  { apply (between_same K (60 * H + M) (seconds * (1 # 60))); try lra;
      rewrite inject_Z_plus, inject_Z_mult;
      change (inject_Z 60) with 60%Q; lra. }
  assert (ES : S = F - 60 * K).
  { apply (between_same S (F - 60 * K) r2); try lra;
      unfold Z.sub; rewrite inject_Z_plus, inject_Z_opp, inject_Z_mult;
      change (inject_Z 60) with 60%Q; lra. }
  assert (EF : (inject_Z F == 3600 * inject_Z H + 60 * inject_Z M + inject_Z S)%Q).
  { assert (F = 3600 * H + 60 * M + S) as -> by lia.
    rewrite !inject_Z_plus, !inject_Z_mult.
    change (inject_Z 3600) with 3600%Q. change (inject_Z 60) with 60%Q.
    reflexivity. }
  cbv zeta. repeat split; lra.
Qed.

(** X4: for a time from zero up to a hundred hours, [formatSRTTime]
    prints twelve characters and its four numbers are in range: hours
    below 100, minutes and seconds below 60, milliseconds below 1000. *)
Theorem formatSRTTime_well_formed (seconds : Q) :
  (0 <= seconds)%Q ->
  (seconds < 360000)%Q ->
  0 <= Srt.hrs seconds < 100
  /\ 0 <= Srt.mins seconds < 60
  /\ 0 <= Srt.secs seconds < 60
  /\ 0 <= Srt.ms seconds < 1000
  /\ String.length (Srt.formatSRTTime seconds) = 12%nat.
Proof.
  intros H0 Hmax.
  pose proof (srt_fields seconds H0) as F. cbv zeta in F.
  destruct F as (A1 & A2 & B1 & B2 & C1 & C2 & D1 & D2).
  set (h := Srt.hrs seconds) in *. set (m := Srt.mins seconds) in *.
  set (s := Srt.secs seconds) in *. set (f := Srt.ms seconds) in *.
  assert (Q1 : forall a b : Z, (inject_Z a < inject_Z b + 1)%Q -> a <= b).
  { intros a b H. assert (H' : (inject_Z a < inject_Z (b + 1))%Q)
      by (rewrite inject_Z_plus; exact H).
    rewrite <- Zlt_Qlt in H'. lia. }
  assert (Q2 : forall a b : Z, (inject_Z a - 1 < inject_Z b)%Q -> a <= b).
  { intros a b H. apply Q1. lra. }
  assert (Hh : 0 <= h <= 99)
    by (split; [apply Q2|apply Q1];
        change (inject_Z 0) with 0%Q; change (inject_Z 99) with 99%Q; lra).
  assert (Hm : 0 <= m <= 59)
    by (split; [apply Q2|apply Q1];
        change (inject_Z 0) with 0%Q; change (inject_Z 59) with 59%Q; lra).
  assert (Hs : 0 <= s <= 59)
    by (split; [apply Q2|apply Q1];
        change (inject_Z 0) with 0%Q; change (inject_Z 59) with 59%Q; lra).
  assert (Hf : 0 <= f <= 999)
    by (split; [apply Q2|apply Q1];
        change (inject_Z 0) with 0%Q; change (inject_Z 999) with 999%Q; lra).
  repeat split; try lia.
  unfold Srt.formatSRTTime. fold h m s f.
  rewrite !string_length_app.
  rewrite !pad2_length, pad3_length by lia. reflexivity.
Qed.

Lemma formatSRTTime_well_formed_witness :
  String.length (Srt.formatSRTTime (3725 + (1 # 2))) = 12%nat.
Proof.
  apply (formatSRTTime_well_formed (3725 + (1 # 2))).
  - vm_compute. discriminate.
  - vm_compute. reflexivity.
Defined.

(* ------------------------------------------------------------------ *)
(** ** Which submission failures are retried *)

Lemma salad_status_classification (status : Z) :
  100 <= status <= 599 ->
  Worker.shouldRetryError
    (Js.mkError "Error" ("Salad API error: " ++ Js.string_of_Z status))
  = ((status =? 502) || (status =? 503) || (status =? 504))%bool.
Proof.
  intros Hs.
  assert (H : forallb
                (fun n =>
                   let status := Z.of_nat n + 100 in
                   Bool.eqb
                     (Worker.shouldRetryError
                        (Js.mkError "Error"
                           ("Salad API error: " ++ Js.string_of_Z status)))
                     ((status =? 502) || (status =? 503) || (status =? 504)))
                (seq 0 500) = true) by (vm_compute; reflexivity).
  rewrite forallb_forall in H.
  specialize (H (Z.to_nat (status - 100))). cbv zeta in H.
  rewrite Z2Nat.id in H by lia.
  replace (status - 100 + 100) with status in H by lia.
  apply Bool.eqb_prop, H, in_seq. lia.
Qed.

(** X5: of the errors [startTranscription] throws for a response that
    is not ok, [Salad API error: <status>], exactly those for the
    statuses 502, 503 and 504 are classified as retryable; 429 and 500,
    for instance, are not. *)
Theorem http_status_retried_iff_502_503_504 (status : Z) :
  100 <= status <= 599 ->
  Worker.shouldRetryError
    (Js.mkError "Error" ("Salad API error: " ++ Js.string_of_Z status))
  = true
  <-> status = 502 \/ status = 503 \/ status = 504.
Proof.
  intros Hs. rewrite (salad_status_classification status Hs).
  rewrite !Bool.orb_true_iff, !Z.eqb_eq. tauto.
Qed.

Lemma http_status_retried_witness :
  Worker.shouldRetryError
    (Js.mkError "Error" ("Salad API error: " ++ Js.string_of_Z 503))
  = true.
Proof.
  apply (http_status_retried_iff_502_503_504 503); lia.
Defined.

(** X6: when the Salad API answers a submission with a status other
    than 502, 503 and 504, the first failure is final: the job is
    written to [error] with the message
    [Non-retryable error: Error: Salad API error: <status>] (its retry
    count being below the maximum), and no retry timer is set. *)
Theorem other_http_status_is_final (w : World) (now : Z)
    (jobId fileKey : string) (job : Job.row) (status : Z) (random : Q) :
  100 <= status <= 599 ->
  status <> 502 -> status <> 503 -> status <> 504 ->
  Job.first_where_id jobId (db w) = Some job ->
  Worker.currentRetryCount jobId (db w) < Worker.MAX_RETRY_ATTEMPTS ->
  let error :=
    Js.mkError "Error" ("Salad API error: " ++ Js.string_of_Z status) in
  let w' :=
    Worker.startTranscription w now jobId fileKey (Worker.SubmitThrows error)
      random in
  Job.first_where_id jobId (db w')
  = Some (Job.set_error
            ("Non-retryable error: Error: Salad API error: "
             ++ Js.string_of_Z status) job)
  /\ timers w' = timers w
  /\ trace w' = trace w.
Proof.
  intros Hs H2 H3 H4 Hjob Hlt error w'. subst w'.
  unfold Worker.startTranscription.
  assert (Hc : Worker.shouldRetryError error = false).
  { subst error. rewrite (salad_status_classification status Hs).
    apply Z.eqb_neq in H2, H3, H4. now rewrite H2, H3, H4. }
  rewrite Hc. simpl.
  rewrite first_where_id_update_same by (intros; reflexivity).
  rewrite Hjob. simpl. repeat split.
  unfold Worker.final_error_message.
  apply Z.leb_gt in Hlt. rewrite Hlt. reflexivity.
Qed.

Lemma other_http_status_is_final_witness :
  Job.first_where_id "job-1"
    (db (Worker.startTranscription Sample.uploaded_world Sample.noon "job-1"
           "uploads/1-a-talk.mp3"
           (Worker.SubmitThrows
              (Js.mkError "Error"
                 ("Salad API error: " ++ Js.string_of_Z 429)))
           (1 # 2)))
  = Some (Job.set_error
            ("Non-retryable error: Error: Salad API error: "
             ++ Js.string_of_Z 429) (Sample.job Job.Uploaded None)).
Proof.
  apply (other_http_status_is_final Sample.uploaded_world Sample.noon "job-1"
           "uploads/1-a-talk.mp3" (Sample.job Job.Uploaded None) 429 (1 # 2));
    try lia; reflexivity.
Defined.

(* ------------------------------------------------------------------ *)
(** ** What no operation of the coordinator does to the table *)

Lemma ids_update_where_id (jobId : string) (f : Job.row -> Job.row)
    (t : Job.table) :
  (forall r, Job.id (f r) = Job.id r) ->
  map Job.id (Job.update_where_id jobId f t) = map Job.id t.
Proof.
  intros Hf. unfold Job.update_where_id. rewrite map_map.
  apply map_ext. intros r. destruct (String.eqb _ _); [apply Hf|reflexivity].
Qed.

Lemma ids_updateJobFromSalad w now jobId d :
  map Job.id (db (Worker.updateJobFromSalad w now jobId d))
  = map Job.id (db w).
Proof.
  unfold Worker.updateJobFromSalad.
  destruct (_ && _)%bool.
  - rewrite db_sendToAirtable, db_backupTranscriptToR2. simpl.
    apply ids_update_where_id. reflexivity.
  - destruct (String.eqb _ _); [|reflexivity]. simpl.
    apply ids_update_where_id. reflexivity.
Qed.

Lemma ids_startTranscription w now jobId fileKey outcome random :
  map Job.id (db (Worker.startTranscription w now jobId fileKey outcome random))
  = map Job.id (db w).
Proof.
  unfold Worker.startTranscription. destruct outcome as [sid|error].
  - simpl. apply ids_update_where_id. reflexivity.
  - destruct (_ && _)%bool.
    + unfold Worker.scheduleRetry. simpl.
      apply ids_update_where_id. reflexivity.
    + simpl. apply ids_update_where_id. reflexivity.
Qed.

Lemma ids_fix_stuck_job check now w job :
  map Job.id (db (fst (Routes.fix_stuck_job check now w job)))
  = map Job.id (db w).
Proof.
  unfold Routes.fix_stuck_job.
  destruct (check _) as [s|]; [|reflexivity].
  destruct (_ || _)%bool; simpl.
  - apply ids_updateJobFromSalad.
  - destruct (String.eqb _ _); simpl; [|reflexivity].
    apply ids_update_where_id. reflexivity.
Qed.

Lemma ids_fix_stuck_loop check now (jobs : Job.table) :
  forall acc,
    map Job.id
      (db (snd (fold_left
                  (fun acc job =>
                     let '(w', result) :=
                       Routes.fix_stuck_job check now (snd acc) job in
                     ((fst acc ++ [result])%list, w'))
                  jobs acc)))
    = map Job.id (db (snd acc)).
Proof.
  induction jobs as [|j jobs IH]; intros acc; simpl; [reflexivity|].
  rewrite IH.
  pose proof (ids_fix_stuck_job check now (snd acc) j) as Hstep.
  destruct (Routes.fix_stuck_job check now (snd acc) j) as [w' res].
  exact Hstep.
Qed.

(** X7: reconciliation, submission and retry, the webhook (production
    and debug), the status poll, the sweep, the manual retry and the
    manual completion never add a row, never remove one and never change
    an id: the column of ids is the same before and after. *)
Theorem operations_keep_the_ids (Date_parse : string -> option Z)
    (checkSaladStatus : string -> option Salad.response)
    (toISOString : Z -> string) (w : World) (now : Z) (jobId fileKey : string)
    (saladData : Salad.response) (req : Routes.webhook_request)
    (outcome : Worker.submit_outcome) (random : Q)
    (transcript saladJobId : option string) :
  let same w' := map Job.id (db w') = map Job.id (db w) in
  same (Worker.updateJobFromSalad w now jobId saladData)
  /\ same (Worker.startTranscription w now jobId fileKey outcome random)
  /\ same (Worker.fire_timer w now outcome random)
  /\ same (snd (Routes.webhook_salad Date_parse w now req))
  /\ same (snd (Admin.webhook_salad_debug w now saladData))
  /\ same (snd (Routes.job_status checkSaladStatus w now jobId))
  /\ same (snd (Routes.fix_stuck_jobs checkSaladStatus w now))
  /\ same (snd (Admin.job_retry toISOString w now jobId outcome random))
  /\ same (Admin.debug_complete_job w now jobId transcript saladJobId).
Proof.
  cbv zeta. repeat split.
  - apply ids_updateJobFromSalad.
  - apply ids_startTranscription.
  - unfold Worker.fire_timer. destruct (timers w) as [|t rest];
      [reflexivity|]. now rewrite ids_startTranscription.
  - destruct (webhook_salad_cases Date_parse w now req) as [[H _]|[H _]];
      rewrite H; [reflexivity|].
    destruct (Job.first_where_salad_job_id _ _); [|reflexivity].
    apply ids_updateJobFromSalad.
  - unfold Admin.webhook_salad_debug.
    destruct (Job.first_where_salad_job_id _ _); [|reflexivity].
    apply ids_updateJobFromSalad.
  - unfold Routes.job_status.
    destruct (Job.first_where_id jobId (db w)) as [job|]; [|reflexivity].
    destruct (_ && _)%bool; [|reflexivity].
    destruct (checkSaladStatus _) as [s|]; [|reflexivity].
    destruct (negb _); [|reflexivity].
    destruct (Job.first_where_id jobId
                (db (Worker.updateJobFromSalad w now jobId s)));
      apply ids_updateJobFromSalad.
  - unfold Routes.fix_stuck_jobs, Routes.fix_stuck_loop.
    now rewrite ids_fix_stuck_loop.
  - unfold Admin.job_retry.
    destruct (Job.first_where_id jobId (db w)) as [job|]; [|reflexivity].
    destruct (negb _); [reflexivity|]. simpl.
    rewrite ids_startTranscription. simpl.
    apply ids_update_where_id. reflexivity.
  - apply ids_updateJobFromSalad.
Qed.

Lemma nth_update_where_id_other (jobId : string) (f : Job.row -> Job.row)
    (t : Job.table) (i : nat) (r : Job.row) :
  nth_error t i = Some r -> Job.id r <> jobId ->
  nth_error (Job.update_where_id jobId f t) i = Some r.
Proof.
  intros Hn Hne. unfold Job.update_where_id.
  rewrite nth_error_map, Hn. simpl.
  destruct (String.eqb_spec (Job.id r) jobId); [contradiction|reflexivity].
Qed.

(** X8: applying a result to one job, or submitting one job, leaves
    every row with another id exactly where and as it was. *)
Theorem other_jobs_are_untouched (w : World) (now : Z) (jobId fileKey : string)
    (saladData : Salad.response) (outcome : Worker.submit_outcome)
    (random : Q) (i : nat) (r : Job.row) :
  nth_error (db w) i = Some r ->
  Job.id r <> jobId ->
  nth_error (db (Worker.updateJobFromSalad w now jobId saladData)) i = Some r
  /\ nth_error
       (db (Worker.startTranscription w now jobId fileKey outcome random)) i
     = Some r.
Proof.
  intros Hn Hne. split.
  - unfold Worker.updateJobFromSalad.
    destruct (_ && _)%bool.
    + rewrite db_sendToAirtable, db_backupTranscriptToR2. simpl.
      now apply nth_update_where_id_other.
    + destruct (String.eqb _ _); [|exact Hn]. simpl.
      now apply nth_update_where_id_other.
  - unfold Worker.startTranscription. destruct outcome as [sid|error].
    + simpl. now apply nth_update_where_id_other.
    + destruct (_ && _)%bool.
      * unfold Worker.scheduleRetry. simpl.
        now apply nth_update_where_id_other.
      * simpl. now apply nth_update_where_id_other.
Qed.

Lemma other_jobs_are_untouched_witness :
  nth_error
    (db (Worker.updateJobFromSalad Sample.processing_world Sample.noon
           "job-2" Sample.completed)) 0
  = Some (Sample.job Job.Processing (Some "ext-1"%string)).
Proof.
  apply (other_jobs_are_untouched Sample.processing_world Sample.noon "job-2"
           "uploads/k" Sample.completed (Worker.Submitted "ext-9") (1 # 2)
           0%nat (Sample.job Job.Processing (Some "ext-1"%string))).
  - reflexivity.
  - vm_compute. discriminate.
Defined.

(** X9: a completed result applied to an id that no row has changes no
    row, yet the transcript is still backed up to R2 and [sendToAirtable]
    is still called; that call finds no job and posts nothing. *)
Theorem completed_result_for_unknown_id (w : World) (now : Z) (jobId : string)
    (saladData : Salad.response) :
  Job.first_where_id jobId (db w) = None ->
  Salad.status saladData = "completed"%string ->
  Js.opt_str_truthy (Salad.transcript saladData) = true ->
  let w' := Worker.updateJobFromSalad w now jobId saladData in
  db w' = db w
  /\ In (R2Put now jobId "transcript.json") (trace w')
  /\ In (R2Put now jobId "transcript.txt") (trace w')
  /\ In (SendToAirtable jobId saladData) (trace w')
  /\ (forall body, In (AirtablePost body) (trace w') ->
                   In (AirtablePost body) (trace w)).
Proof.
  intros Hnone Hs Ht w'. subst w'.
  unfold Worker.updateJobFromSalad. rewrite Hs, Ht. simpl.
  set (td := Worker.transcriptionData saladData).
  set (f := Job.set_completed _ _ _ _).
  rewrite (update_where_id_absent f jobId (db w) Hnone).
  unfold Worker.sendToAirtable, Worker.backupTranscriptToR2.
  destruct (_ || _)%bool; simpl; rewrite Hnone; simpl;
    (split; [reflexivity|]);
    repeat split;
    try (rewrite !in_app_iff; simpl; tauto);
    intros body Hin; rewrite !in_app_iff in Hin; simpl in Hin;
    intuition discriminate.
Qed.

Lemma completed_result_for_unknown_id_witness :
  db (Worker.updateJobFromSalad Sample.processing_world Sample.noon "job-2"
        Sample.completed)
  = db Sample.processing_world.
Proof.
  apply (completed_result_for_unknown_id Sample.processing_world Sample.noon
           "job-2" Sample.completed); reflexivity.
Defined.

(* ------------------------------------------------------------------ *)
(** ** The sweep *)

Lemma fix_stuck_job_reports check now w job :
  fst (snd (Routes.fix_stuck_job check now w job)) = Job.id job.
Proof.
  unfold Routes.fix_stuck_job.
  destruct (check _) as [s|]; [|reflexivity].
  destruct (_ || _)%bool; [reflexivity|].
  destruct (String.eqb _ _); reflexivity.
Qed.

Lemma fix_stuck_loop_reports check now (jobs : Job.table) :
  forall acc,
    map fst
      (fst (fold_left
              (fun acc job =>
                 let '(w', result) :=
                   Routes.fix_stuck_job check now (snd acc) job in
                 ((fst acc ++ [result])%list, w'))
              jobs acc))
    = map fst (fst acc) ++ map Job.id jobs.
Proof.
  induction jobs as [|j jobs IH]; intros acc; simpl.
  - now rewrite app_nil_r.
  - rewrite IH.
    pose proof (fix_stuck_job_reports check now (snd acc) j) as Hstep.
    destruct (Routes.fix_stuck_job check now (snd acc) j) as [w' res].
    simpl in *. rewrite map_app, <- app_assoc. simpl. now rewrite Hstep.
Qed.

(** X10: the sweep reports exactly one result for each job it selected,
    in the order of the selection, whatever the Salad API answered for
    the jobs before it. *)
Theorem sweep_reports_every_stuck_job
    (checkSaladStatus : string -> option Salad.response) (w : World) (now : Z) :
  map fst (fst (Routes.fix_stuck_jobs checkSaladStatus w now))
  = map Job.id (Routes.stuckJobs w now).
Proof.
  unfold Routes.fix_stuck_jobs, Routes.fix_stuck_loop.
  now rewrite fix_stuck_loop_reports.
Qed.

Lemma stuckJobs_selected w now j :
  In j (Routes.stuckJobs w now) ->
  In j (db w) /\ Job.status j = Job.Processing
  /\ Job.created_at j < now - 10 * 60 * 1000.
Proof.
  intros H. destruct (stuckJobs_processing w now j H) as [Hin Hs].
  repeat split; try assumption.
  unfold Routes.stuckJobs in H.
  apply in_order_by_created_at_desc in H.
  apply filter_In in H. destruct H as [_ Hp].
  apply andb_prop in Hp. destruct Hp as [_ Hp]. now apply Z.ltb_lt in Hp.
Qed.

(** X11: the sweep leaves alone every job that is not [processing] or
    was created less than ten minutes before the sweep (job ids being
    unique). *)
Theorem sweep_leaves_unselected_jobs
    (checkSaladStatus : string -> option Salad.response) (w : World) (now : Z)
    (r : Job.row) :
  NoDup (map Job.id (db w)) ->
  In r (db w) ->
  Job.status r <> Job.Processing \/ now - 10 * 60 * 1000 <= Job.created_at r ->
  Job.first_where_id (Job.id r)
    (db (snd (Routes.fix_stuck_jobs checkSaladStatus w now)))
  = Some r.
Proof.
  intros Hnd Hin Hout.
  unfold Routes.fix_stuck_jobs.
  rewrite fix_stuck_loop_other_id.
  - now apply first_where_id_unique.
  - intros j Hj Hid. apply stuckJobs_selected in Hj.
    destruct Hj as (Hjin & Hjs & Hjc).
    assert (j = r) by (eapply same_id_same_row; eauto). subst j.
    destruct Hout as [Hout|Hout]; [contradiction|lia].
Qed.

Lemma sweep_leaves_unselected_jobs_witness :
  Job.first_where_id "job-1"
    (db (snd (Routes.fix_stuck_jobs (Sample.salad_says Sample.completed)
                Sample.processing_world 1000)))
  = Some (Sample.job Job.Processing (Some "ext-1"%string)).
Proof.
  apply (sweep_leaves_unselected_jobs (Sample.salad_says Sample.completed)
           Sample.processing_world 1000
           (Sample.job Job.Processing (Some "ext-1"%string))).
  - simpl. constructor; [intros []|constructor].
  - simpl. left. reflexivity.
  - right. vm_compute. discriminate.
Defined.

(** X12: when the Salad API reports [succeeded], or [completed] without
    a transcript, the sweep records the action [completed] for the job
    although [updateJobFromSalad] writes nothing: the world is left as
    it was and the job stays [processing]. *)
Theorem sweep_reports_completed_without_writing
    (checkSaladStatus : string -> option Salad.response) (w : World) (now : Z)
    (job : Job.row) (saladStatus : Salad.response) :
  checkSaladStatus
    (match Job.salad_job_id job with Some s => s | None => "null"%string end)
  = Some saladStatus ->
  Salad.status saladStatus = "succeeded"%string
  \/ (Salad.status saladStatus = "completed"%string
      /\ Js.opt_str_truthy (Salad.transcript saladStatus) = false) ->
  Routes.fix_stuck_job checkSaladStatus now w job
  = (w, (Job.id job, Routes.ActCompleted)).
Proof.
  intros Hcheck Hs. unfold Routes.fix_stuck_job. rewrite Hcheck.
  assert (Hnoop : Worker.updateJobFromSalad w now (Job.id job) saladStatus = w).
  { apply updateJobFromSalad_other.
    - destruct Hs as [Hs|[Hs _]]; rewrite Hs; discriminate.
    - destruct Hs as [Hs|[_ Ht]]; intros [Hc Ht'].
      + rewrite Hs in Hc. discriminate Hc.
      + rewrite Ht in Ht'. discriminate Ht'. }
  destruct Hs as [Hs|[Hs _]]; rewrite Hs; simpl; now rewrite Hnoop.
Qed.

Lemma sweep_reports_completed_without_writing_witness :
  Routes.fix_stuck_job
    (Sample.salad_says (Sample.result "ext-1" "succeeded" (Some "hello"%string)))
    Sample.noon Sample.processing_world
    (Sample.job Job.Processing (Some "ext-1"%string))
  = (Sample.processing_world, ("job-1"%string, Routes.ActCompleted)).
Proof.
  apply (sweep_reports_completed_without_writing
           (Sample.salad_says
              (Sample.result "ext-1" "succeeded" (Some "hello"%string)))
           Sample.processing_world Sample.noon
           (Sample.job Job.Processing (Some "ext-1"%string))
           (Sample.result "ext-1" "succeeded" (Some "hello"%string))).
  - reflexivity.
  - left. reflexivity.
Defined.

(* ------------------------------------------------------------------ *)
(** ** More on the webhook routes *)

(** X13: the debug webhook is the production webhook without the
    replay check. Whenever the production route does not answer
    expired, the two leave the same world, and the debug route answers
    success (with its [debug] flag) or not-found exactly when the
    production route answers success or not-found. A delivery the
    production route answers expired, leaving the world as it was, the
    debug route looks up and applies all the same. *)
Theorem debug_webhook_is_webhook_without_replay_check
    (Date_parse : string -> option Z) (w : World) (now : Z)
    (req : Routes.webhook_request) :
  let production := Routes.webhook_salad Date_parse w now req in
  let debug := Admin.webhook_salad_debug w now (Routes.payload req) in
  (fst production <> Routes.WebhookExpired401 ->
   snd production = snd debug
   /\ (fst production = Routes.Success200
       <-> fst debug = Admin.DebugSuccess200)
   /\ (fst production = Routes.JobNotFound404
       <-> fst debug = Admin.DebugJobNotFound404))
  /\ (fst production = Routes.WebhookExpired401 ->
      snd production = w
      /\ forall result,
           Job.first_where_salad_job_id (Salad.job_id (Routes.payload req))
             (db w) = Some result ->
           debug
           = (Admin.DebugSuccess200,
              Worker.updateJobFromSalad w now (Job.id result)
                (Routes.payload req))).
Proof.
  cbv zeta. unfold Admin.webhook_salad_debug.
  destruct (webhook_salad_cases Date_parse w now req) as [[H _]|[H _]];
    rewrite H; simpl; split.
  - intros Hne. now elim Hne.
  - intros _. split; [reflexivity|]. intros result Hr. now rewrite Hr.
  - intros _.
    destruct (Job.first_where_salad_job_id _ _); simpl;
      repeat split; intros; try reflexivity; discriminate.
  - destruct (Job.first_where_salad_job_id _ _); discriminate.
Qed.

Lemma debug_webhook_witness :
  snd (Routes.webhook_salad Sample.no_parse Sample.processing_world
         Sample.noon (Sample.delivery Sample.completed))
  = snd (Admin.webhook_salad_debug Sample.processing_world Sample.noon
           Sample.completed).
Proof.
  refine (proj1 (proj1 (debug_webhook_is_webhook_without_replay_check
                          Sample.no_parse Sample.processing_world Sample.noon
                          (Sample.delivery Sample.completed)) _)).
  vm_compute. discriminate.
Defined.

(** X14: when the body carries a truthy [timestamp], it alone decides
    the replay check: the body's [created_at] and the
    [x-webhook-timestamp] header are not looked at, so two deliveries
    that differ only there are answered alike. *)
Theorem body_timestamp_takes_precedence (Date_parse : string -> option Z)
    (w : World) (now : Z) (req req' : Routes.webhook_request) :
  Js.truthy (Routes.timestamp req) = true ->
  Routes.timestamp req' = Routes.timestamp req ->
  Routes.payload req' = Routes.payload req ->
  Routes.webhookTimestamp req = Routes.timestamp req
  /\ Routes.webhook_salad Date_parse w now req'
     = Routes.webhook_salad Date_parse w now req.
Proof.
  intros Ht Hts Hp.
  assert (E : Routes.webhookTimestamp req = Routes.timestamp req).
  { unfold Routes.webhookTimestamp, Js.or_else. now rewrite Ht, Ht. }
  assert (E' : Routes.webhookTimestamp req' = Routes.timestamp req).
  { unfold Routes.webhookTimestamp, Js.or_else.
    rewrite Hts. now rewrite Ht, Ht. }
  split; [exact E|].
  unfold Routes.webhook_salad. now rewrite E, E', Hp.
Qed.

Lemma body_timestamp_takes_precedence_witness :
  Routes.webhook_salad Sample.no_parse Sample.processing_world Sample.noon
    {| Routes.timestamp := Js.Number (inject_Z Sample.noon);
       Routes.created_at := Js.Number 1000;
       Routes.x_webhook_timestamp := Some "1"%string;
       Routes.payload := Sample.completed |}
  = Routes.webhook_salad Sample.no_parse Sample.processing_world Sample.noon
      {| Routes.timestamp := Js.Number (inject_Z Sample.noon);
         Routes.created_at := Js.Undefined;
         Routes.x_webhook_timestamp := None;
         Routes.payload := Sample.completed |}.
Proof.
  apply (body_timestamp_takes_precedence Sample.no_parse
           Sample.processing_world Sample.noon
           {| Routes.timestamp := Js.Number (inject_Z Sample.noon);
              Routes.created_at := Js.Undefined;
              Routes.x_webhook_timestamp := None;
              Routes.payload := Sample.completed |}
           {| Routes.timestamp := Js.Number (inject_Z Sample.noon);
              Routes.created_at := Js.Number 1000;
              Routes.x_webhook_timestamp := Some "1"%string;
              Routes.payload := Sample.completed |});
    reflexivity.
Defined.

(* ------------------------------------------------------------------ *)
(** ** Authentication *)

Lemma prefix_app (pat s : string) : String.prefix pat (pat ++ s) = true.
Proof.
  induction pat as [|c pat IH]; simpl; [now destruct s|].
  destruct (ascii_dec c c) as [_|Hne]; [exact IH|now elim Hne].
Qed.

Lemma drop_app (pat s : string) : Text.drop (String.length pat) (pat ++ s) = s.
Proof. induction pat as [|c pat IH]; simpl; [reflexivity|exact IH]. Qed.

(** A pattern at the very start of a string is the occurrence that
    [replace] replaces. *)
Lemma replace_prefix (pat rep s : string) :
  Text.replace pat rep (pat ++ s) = (rep ++ s)%string.
Proof.
  assert (U : forall x,
             Text.replace pat rep x
             = if String.prefix pat x
               then (rep ++ Text.drop (String.length pat) x)%string
               else match x with
                    | EmptyString => EmptyString
                    | String c x' => String c (Text.replace pat rep x')
                    end) by (intros x; destruct x; reflexivity).
  now rewrite U, prefix_app, drop_app.
Qed.

(** X15: a request whose header is [Bearer <token>] passes
    [authenticate] exactly when the token is the configured access token
    and is not empty; a request without the header never passes, and
    with an empty configured token nobody does. *)
Theorem authenticate_bearer (ACCESS_TOKEN token : string)
    (authHeader : option string) :
  (Auth.authenticate ACCESS_TOKEN (Some ("Bearer " ++ token)%string) = true
   <-> token = ACCESS_TOKEN /\ token <> ""%string)
  /\ Auth.authenticate ACCESS_TOKEN None = false
  /\ Auth.authenticate "" authHeader = false.
Proof.
  repeat split.
  - unfold Auth.authenticate in H. rewrite replace_prefix in H. simpl in H.
    destruct (String.eqb_spec token ACCESS_TOKEN); [assumption|].
    now rewrite Bool.orb_true_r in H.
  - unfold Auth.authenticate in H. rewrite replace_prefix in H. simpl in H.
    intros ->. discriminate H.
  - intros [-> Hne]. unfold Auth.authenticate. rewrite replace_prefix. simpl.
    rewrite String.eqb_refl.
    destruct ACCESS_TOKEN; [now elim Hne|reflexivity].
  - unfold Auth.authenticate. destruct authHeader as [h|]; [|reflexivity].
    destruct (String.eqb_spec (Text.replace "Bearer " "" h) "") as [->|];
      [reflexivity|]. now rewrite Bool.orb_true_r.
Qed.

(* ------------------------------------------------------------------ *)
(** ** Job creation and upload keys *)

Lemma string_of_uint_no_dash (d : Decimal.uint) :
  ~ In "-"%char (list_ascii_of_string (NilEmpty.string_of_uint d)).
Proof.
  induction d; simpl; [intros []|..]; intros [H|H]; try discriminate H; auto.
Qed.

Lemma string_of_Z_no_dash (z : Z) :
  0 <= z -> ~ In "-"%char (list_ascii_of_string (Js.string_of_Z z)).
Proof.
  intros Hz. unfold Js.string_of_Z, NilZero.string_of_int.
  destruct z as [|p|p]; [| |lia].
  - simpl. intros [H|[]]. discriminate H.
  - simpl. unfold NilZero.string_of_uint.
    destruct (Pos.to_uint p) eqn:E;
      try (rewrite <- E; apply string_of_uint_no_dash).
    simpl. intros [H|[]]. discriminate H.
Qed.

Lemma jobId_of_uploads_key (a b rest : string) :
  ~ In "-"%char (list_ascii_of_string a) ->
  ~ In "-"%char (list_ascii_of_string b) ->
  Upload.jobId_of_key ("uploads/" ++ a ++ "-" ++ b ++ "-" ++ rest)
  = ("job-" ++ a ++ "-" ++ b)%string.
Proof.
  intros Ha Hb. unfold Upload.jobId_of_key.
  rewrite replace_prefix.
  change ("" ++ a ++ "-" ++ b ++ "-" ++ rest)%string
    with (a ++ String "-" (b ++ String "-" rest))%string.
  rewrite !split_app_sep, !split_without_sep by assumption.
  reflexivity.
Qed.

(** X16: from the path [/upload/uploads/<timestamp>-<randomId>-<rest>]
    the upload route derives the job id [job-<timestamp>-<randomId>],
    whatever follows the second dash, as long as the timestamp is not
    negative and the random id has no dash; so the key handed out with a
    new job leads back to that job. *)
Theorem upload_path_leads_to_its_job (timestamp : Z) (randomId rest : string) :
  0 <= timestamp ->
  ~ In "-"%char (list_ascii_of_string randomId) ->
  Upload.jobId_of_key
    (Upload.key_of_path
       ("/upload/uploads/" ++ Js.string_of_Z timestamp ++ "-" ++ randomId
        ++ "-" ++ rest))
  = Upload.new_jobId timestamp randomId
  /\ forall filename,
       Upload.jobId_of_key
         (Upload.key_of_path
            ("/upload/" ++ Upload.upload_key timestamp randomId filename))
       = Upload.new_jobId timestamp randomId.
Proof.
  intros Hts Hrid.
  assert (G : forall rest',
             Upload.jobId_of_key
               (Upload.key_of_path
                  ("/upload/"
                   ++ ("uploads/" ++ Js.string_of_Z timestamp ++ "-"
                       ++ randomId ++ "-" ++ rest')))
             = Upload.new_jobId timestamp randomId).
  { intros rest'. unfold Upload.key_of_path. rewrite replace_prefix.
    change ("" ++ ?x)%string with x.
    rewrite jobId_of_uploads_key;
      [reflexivity|now apply string_of_Z_no_dash|assumption]. }
  split; [apply (G rest)|].
  intros filename. apply (G (Text.underscore_spaces filename)).
Qed.

Lemma upload_path_leads_to_its_job_witness :
  Upload.jobId_of_key
    (Upload.key_of_path
       ("/upload/uploads/" ++ Js.string_of_Z 1752782411362 ++ "-"
        ++ "fkobdp5wc" ++ "-" ++ "my_talk-1.mp3"))
  = Upload.new_jobId 1752782411362 "fkobdp5wc".
Proof.
  refine (proj1 (upload_path_leads_to_its_job 1752782411362 "fkobdp5wc"
                   "my_talk-1.mp3" _ _)).
  - lia.
  - simpl. intuition discriminate.
Defined.

(** X17: [POST /upload/signed-url] either rejects the request and leaves
    the world as it was, or appends exactly one job. It appends one only
    for a non-empty file name of a supported type, a size that is absent,
    zero or within the limit, and a monthly usage that stays within the
    limit once the estimate is added; the new job is [uploaded], has no
    Salad job id, and carries the id and the creation time the answer
    was built from. *)
Theorem signed_url_admission (w : World) (now : Z) (usedMinutes : Q)
    (randomId : string) (req : Upload.signed_url_request) :
  let out := Upload.signed_url w now usedMinutes randomId req in
  (exists jobId key filename job,
     out = (Upload.UploadTarget jobId key, with_db w (db w ++ [job]))
     /\ Upload.req_filename req = Some filename
     /\ filename <> ""%string
     /\ Files.validateFileType filename = true
     /\ (forall n, Upload.req_fileSize req = Some n ->
                   (inject_Z n <= Files.MAX_FILE_SIZE)%Q)
     /\ (usedMinutes
         + (if Upload.size_truthy (Upload.req_fileSize req)
            then Files.estimateAudioDuration
                   (inject_Z (Upload.size_or_0 (Upload.req_fileSize req)))
                   filename
            else 10)
         <= Files.MONTHLY_USAGE_LIMIT_MINUTES)%Q
     /\ jobId = Upload.new_jobId now randomId
     /\ key = Upload.upload_key now randomId filename
     /\ Job.id job = jobId
     /\ Job.status job = Job.Uploaded
     /\ Job.salad_job_id job = None
     /\ Job.created_at job = now)
  \/ (snd out = w
      /\ forall jobId key, fst out <> Upload.UploadTarget jobId key).
Proof.
  cbv zeta. unfold Upload.signed_url.
  destruct (Upload.req_filename req) as [filename|] eqn:Ef;
    [|right; split; [reflexivity|discriminate]].
  destruct (Js.str_truthy filename) eqn:Et; simpl;
    [|right; split; [reflexivity|discriminate]].
  destruct (Files.validateFileType filename) eqn:Ev; simpl;
    [|right; split; [reflexivity|discriminate]].
  destruct (Upload.size_truthy (Upload.req_fileSize req)
            && negb (Qle_bool
                       (inject_Z (Upload.size_or_0 (Upload.req_fileSize req)))
                       Files.MAX_FILE_SIZE))%bool eqn:Es;
    [right; split; [reflexivity|discriminate]|].
  match goal with
  | |- context [negb (Qle_bool ?a ?b)] =>
      destruct (Qle_bool a b) eqn:Eu; simpl;
        [|right; split; [reflexivity|discriminate]]
  end.
  left. do 4 eexists. split; [reflexivity|].
  repeat split; try reflexivity.
  - intros ->. discriminate Et.
  - exact Ev.
  - intros n Hn. rewrite Hn in Es. simpl in Es.
    destruct (n =? 0) eqn:En; simpl in Es.
    + apply Z.eqb_eq in En. subst n. vm_compute. discriminate.
    + apply Bool.negb_false_iff in Es. now apply Qle_bool_iff in Es.
  - now apply Qle_bool_iff in Eu.
Qed.

(* ------------------------------------------------------------------ *)
(** ** Manual retry and manual completion *)



Lemma string_app_assoc (a b c : string) :
  (a ++ (b ++ c) = (a ++ b) ++ c)%string.
Proof. induction a as [|x a IH]; simpl; [reflexivity|now rewrite IH]. Qed.

(** X19: for a job created by [POST /upload/signed-url], the file key
    the manual retry rebuilds is the upload key with the text of
    [created_at] and a dash inserted after [uploads/]; it is never the
    key the file was uploaded under. *)
Theorem retry_fileKey_is_not_the_upload_key (created_at : string)
    (timestamp : Z) (randomId filename : string) :
  Admin.retry_fileKey created_at (Upload.new_jobId timestamp randomId) filename
  = ("uploads/" ++ created_at ++ "-" ++ Js.string_of_Z timestamp ++ "-"
     ++ randomId ++ "-" ++ Text.underscore_spaces filename)%string
  /\ Admin.retry_fileKey created_at (Upload.new_jobId timestamp randomId)
       filename
     <> Upload.upload_key timestamp randomId filename.
Proof.
  assert (E : Admin.retry_fileKey created_at
                (Upload.new_jobId timestamp randomId) filename
              = ("uploads/" ++ created_at ++ "-" ++ Js.string_of_Z timestamp
                 ++ "-" ++ randomId ++ "-"
                 ++ Text.underscore_spaces filename)%string).
  { unfold Admin.retry_fileKey, Upload.new_jobId.
    rewrite replace_prefix.
    change ("" ++ ?x)%string with x.
    now rewrite <- string_app_assoc. }
  split; [exact E|].
  rewrite E. unfold Upload.upload_key. intros H.
  apply (f_equal String.length) in H.
  rewrite !string_length_app in H. simpl in H. lia.
Qed.

(** X20: the manual completion with a missing or empty transcript
    changes nothing: no row is written, nothing is backed up and nothing
    is sent. *)
Theorem debug_complete_job_without_transcript (w : World) (now : Z)
    (jobId : string) (transcript saladJobId : option string) :
  transcript = None \/ transcript = Some ""%string ->
  Admin.debug_complete_job w now jobId transcript saladJobId = w.
Proof.
  intros Ht. unfold Admin.debug_complete_job.
  apply updateJobFromSalad_other; [discriminate|].
  intros [_ H]. destruct Ht as [-> | ->]; discriminate H.
Qed.

Lemma debug_complete_job_without_transcript_witness :
  Admin.debug_complete_job Sample.processing_world Sample.noon "job-1"
    (Some ""%string) None
  = Sample.processing_world.
Proof.
  apply (debug_complete_job_without_transcript Sample.processing_world
           Sample.noon "job-1" (Some ""%string) None).
  right. reflexivity.
Defined.

(* ------------------------------------------------------------------ *)
(** ** The status poll *)

(** X21: a poll of a [processing] job for which the Salad API reports a
    completed result with a transcript applies the result and answers
    with the job as it was read, its status, transcript and completion
    time replaced by the ones just written. *)
Theorem job_status_applies_completed_result
    (checkSaladStatus : string -> option Salad.response) (w : World) (now : Z)
    (jobId : string) (job : Job.row) (saladJobId : string)
    (saladStatus : Salad.response) :
  Job.first_where_id jobId (db w) = Some job ->
  Job.status job = Job.Processing ->
  Job.salad_job_id job = Some saladJobId ->
  saladJobId <> ""%string ->
  checkSaladStatus saladJobId = Some saladStatus ->
  Salad.status saladStatus = "completed"%string ->
  Js.opt_str_truthy (Salad.transcript saladStatus) = true ->
  exists answered,
    Routes.job_status checkSaladStatus w now jobId
    = (Routes.PollJob answered,
       Worker.updateJobFromSalad w now jobId saladStatus)
    /\ Job.status answered = Job.Completed
    /\ Job.transcription_data answered
       = Some (Worker.transcriptionData saladStatus)
    /\ Job.completed_at answered = Some now
    /\ Job.id answered = Job.id job
    /\ Job.error_message answered = Job.error_message job.
Proof.
  intros Hjob Hs Hsid Hne Hcheck Hc Ht.
  destruct (updateJobFromSalad_completed w now jobId saladStatus Hc Ht)
    as [D _].
  unfold Routes.job_status. rewrite Hjob, Hs, Hsid. simpl.
  destruct saladJobId as [|c sid]; [now elim Hne|]. simpl.
  rewrite Hcheck, Hc. simpl.
  rewrite D, first_where_id_update_same by (intros; reflexivity).
  rewrite Hjob. simpl. eexists. split; [reflexivity|].
  repeat split.
Qed.

Lemma job_status_applies_completed_result_witness :
  exists answered,
    Routes.job_status (Sample.salad_says Sample.completed)
      Sample.processing_world Sample.noon "job-1"
    = (Routes.PollJob answered,
       Worker.updateJobFromSalad Sample.processing_world Sample.noon "job-1"
         Sample.completed)
    /\ Job.status answered = Job.Completed.
Proof.
  destruct (job_status_applies_completed_result
              (Sample.salad_says Sample.completed) Sample.processing_world
              Sample.noon "job-1"
              (Sample.job Job.Processing (Some "ext-1"%string)) "ext-1"
              Sample.completed eq_refl eq_refl eq_refl)
    as (answered & H1 & H2 & _); try reflexivity.
  - discriminate.
  - exists answered. split; assumption.
Defined.

(* ------------------------------------------------------------------ *)
(** ** More on submission, retry and outbound effects *)

(** X22: when a submission fails with a retryable error and the retry
    that the timer starts succeeds, the job ends [processing] with the
    new Salad job id and no timer is left, but the row still carries the
    retry count it had, the time of the retry and the countdown message
    written when the retry was scheduled. *)
Theorem retry_then_success (w : World) (now1 now2 : Z) (jobId fileKey : string)
    (job : Job.row) (error : Js.error) (random1 random2 : Q)
    (saladJobId : string) :
  Worker.shouldRetryError error = true ->
  Job.first_where_id jobId (db w) = Some job ->
  Worker.currentRetryCount jobId (db w) < Worker.MAX_RETRY_ATTEMPTS ->
  timers w = [] ->
  let c := Worker.currentRetryCount jobId (db w) in
  let w1 :=
    Worker.startTranscription w now1 jobId fileKey (Worker.SubmitThrows error)
      random1 in
  let w2 := Worker.fire_timer w1 now2 (Worker.Submitted saladJobId) random2 in
  exists row,
    Job.first_where_id jobId (db w2) = Some row
    /\ Job.status row = Job.Processing
    /\ Job.salad_job_id row = Some saladJobId
    /\ Job.retry_count row = Some c
    /\ Job.last_retry_at row = Some now1
    /\ Job.error_message row
       = Some (Worker.retry_message (Worker.getRetryDelay c random1) c)
    /\ timers w2 = [].
Proof.
  intros Hretry Hjob Hlt Htimers c w1 w2.
  destruct (startTranscription_retryable w now1 jobId fileKey error random1
              job Hretry Hjob Hlt) as (F & _ & T).
  fold c in F, T. fold w1 in F, T. rewrite Htimers in T. simpl in T.
  subst w2. unfold Worker.fire_timer. rewrite T. simpl.
  rewrite first_where_id_update_same by (intros; reflexivity).
  rewrite F. simpl. eexists. split; [reflexivity|]. repeat split.
Qed.

Lemma retry_then_success_witness :
  exists row,
    Job.first_where_id "job-1"
      (db (Worker.fire_timer
             (Worker.startTranscription Sample.uploaded_world 1000 "job-1"
                "uploads/1-a-talk.mp3" (Worker.SubmitThrows Sample.error503)
                (1 # 2))
             7000 (Worker.Submitted "ext-1") (1 # 2)))
    = Some row
    /\ Job.status row = Job.Processing.
Proof.
  destruct (retry_then_success Sample.uploaded_world 1000 7000 "job-1"
              "uploads/1-a-talk.mp3" (Sample.job Job.Uploaded None)
              Sample.error503 (1 # 2) (1 # 2) "ext-1")
    as (row & H1 & H2 & _); try reflexivity.
  exists row. split; assumption.
Defined.

(** X23: the only operation with outbound effects is the application of
    a completed result with a transcript. A submission, whatever its
    outcome, and any other result, [failed] included, leave the trace of
    R2 puts and Airtable calls as it was; [sendToAirtable] is called
    once for a completed result with a transcript and not at all
    otherwise. *)
Theorem outbound_effects_only_on_completion (w : World) (now : Z)
    (jobId fileKey : string) (saladData : Salad.response)
    (outcome : Worker.submit_outcome) (random : Q) :
  trace (Worker.startTranscription w now jobId fileKey outcome random)
  = trace w
  /\ (~ (Salad.status saladData = "completed"%string
         /\ Js.opt_str_truthy (Salad.transcript saladData) = true) ->
      trace (Worker.updateJobFromSalad w now jobId saladData) = trace w)
  /\ sendToAirtable_calls (Worker.updateJobFromSalad w now jobId saladData)
     = (sendToAirtable_calls w
        + (if String.eqb (Salad.status saladData) "completed"
              && Js.opt_str_truthy (Salad.transcript saladData)
           then 1 else 0))%nat.
Proof.
  repeat split.
  - unfold Worker.startTranscription. destruct outcome as [sid|error];
      [reflexivity|].
    destruct (_ && _)%bool; reflexivity.
  - intros Hn. unfold Worker.updateJobFromSalad.
    destruct (String.eqb_spec (Salad.status saladData) "completed") as [E|E];
      destruct (Js.opt_str_truthy (Salad.transcript saladData)) eqn:Et;
      simpl; try (exfalso; apply Hn; now split);
      destruct (String.eqb _ _); reflexivity.
  - destruct (String.eqb_spec (Salad.status saladData) "completed") as [E|E];
      destruct (Js.opt_str_truthy (Salad.transcript saladData)) eqn:Et;
      simpl.
    + destruct (updateJobFromSalad_completed w now jobId saladData E Et)
        as [_ C]. rewrite C. lia.
    + unfold Worker.updateJobFromSalad. rewrite E, Et. simpl.
      rewrite Nat.add_0_r. reflexivity.
    + unfold Worker.updateJobFromSalad.
      destruct (String.eqb_spec (Salad.status saladData) "completed");
        [contradiction|]. simpl.
      rewrite Nat.add_0_r. destruct (String.eqb _ _); reflexivity.
    + unfold Worker.updateJobFromSalad.
      destruct (String.eqb_spec (Salad.status saladData) "completed");
        [contradiction|]. simpl.
      rewrite Nat.add_0_r. destruct (String.eqb _ _); reflexivity.
Qed.

Lemma outbound_effects_only_on_completion_witness :
  trace (Worker.updateJobFromSalad Sample.processing_world Sample.noon "job-1"
           Sample.failed)
  = trace Sample.processing_world.
Proof.
  refine (proj1 (proj2 (outbound_effects_only_on_completion
                          Sample.processing_world Sample.noon "job-1"
                          "uploads/k" Sample.failed (Worker.Submitted "x")
                          (1 # 2))) _).
  intros [H _]. discriminate H.
Defined.

(** X24: for the retry counts that can be scheduled, those below
    [MAX_RETRY_ATTEMPTS], the backoff is at least 5 seconds and at most
    21 seconds: the cap of five minutes is never reached, and the
    message of the retry never announces more than 21 seconds. *)
Theorem scheduled_delay_is_short (count : Z) (random : Q) :
  0 <= count < Worker.MAX_RETRY_ATTEMPTS ->
  (0 <= random)%Q ->
  (random <= 1)%Q ->
  (5000 <= Worker.getRetryDelay count random)%Q
  /\ (Worker.getRetryDelay count random <= 21000)%Q
  /\ (Worker.getRetryDelay count random < Worker.RETRY_DELAY_MAX_MS)%Q
  /\ 5 <= Js.round (Worker.getRetryDelay count random / 1000) <= 21.
Proof.
  intros Hc H0 H1.
  destruct (scheduled_exponential count Hc) as [Elo Ehi].
  assert (Hmax : (Worker.RETRY_DELAY_MAX_MS == 300000)%Q) by reflexivity.
  assert (Hd : (Worker.getRetryDelay count random
                == Qmin (Worker.RETRY_DELAY_BASE_MS * 2 ^ count)
                     Worker.RETRY_DELAY_MAX_MS + random * 1000)%Q)
    by reflexivity.
  set (e := (Worker.RETRY_DELAY_BASE_MS * 2 ^ count)%Q) in *.
  assert (M : (Qmin e Worker.RETRY_DELAY_MAX_MS == e)%Q)
    by (apply Q.min_l; lra).
  set (d := Worker.getRetryDelay count random) in *.
  clearbody e d.
  assert (Dlo : (5000 <= d)%Q) by lra.
  assert (Dhi : (d <= 21000)%Q) by lra.
  repeat split; try lra.
  - unfold Js.round.
    assert (H : (inject_Z 5 <= d / 1000 + (1 # 2))%Q).
    { change (inject_Z 5) with 5%Q.
      setoid_replace (d / 1000)%Q with (d * (1 # 1000))%Q by reflexivity.
      lra. }
    apply Qfloor_resp_le in H. now rewrite Qfloor_Z in H.
  - unfold Js.round.
    assert (H : (d / 1000 + (1 # 2) <= inject_Z 21 + (1 # 2))%Q).
    { change (inject_Z 21) with 21%Q.
      setoid_replace (d / 1000)%Q with (d * (1 # 1000))%Q by reflexivity.
      lra. }
    pose proof (Qfloor_le (d / 1000 + (1 # 2))) as Hf.
    assert (Hlt : (inject_Z (Qfloor (d / 1000 + (1 # 2))) < inject_Z 22)%Q).
    { change (inject_Z 22) with 22%Q. change (inject_Z 21) with 21%Q in H.
      lra. }
    rewrite <- Zlt_Qlt in Hlt. lia.
Qed.

Lemma scheduled_delay_is_short_witness :
  (Worker.getRetryDelay 2 (1 # 2) <= 21000)%Q.
Proof.
  apply (scheduled_delay_is_short 2 (1 # 2)).
  - vm_compute. split; [discriminate|reflexivity].
  - vm_compute. discriminate.
  - vm_compute. discriminate.
Defined.

(** X25: the status poll hands every result that is not [processing],
    [failed] included, to [updateJobFromSalad], as the webhook does; so
    for the job the webhook would find, a poll leaves the world the
    webhook leaves for the same result. *)
Theorem poll_applies_like_webhook (Date_parse : string -> option Z)
    (checkSaladStatus : string -> option Salad.response) (w : World) (now : Z)
    (jobId : string) (job : Job.row) (saladJobId : string)
    (saladStatus : Salad.response) (req : Routes.webhook_request) :
  Job.first_where_id jobId (db w) = Some job ->
  Job.status job = Job.Processing ->
  Job.salad_job_id job = Some saladJobId ->
  saladJobId <> ""%string ->
  checkSaladStatus saladJobId = Some saladStatus ->
  Salad.status saladStatus <> "processing"%string ->
  Routes.payload req = saladStatus ->
  fst (Routes.webhook_salad Date_parse w now req) <> Routes.WebhookExpired401 ->
  option_map Job.id
    (Job.first_where_salad_job_id (Salad.job_id saladStatus) (db w))
  = Some jobId ->
  snd (Routes.job_status checkSaladStatus w now jobId)
  = snd (Routes.webhook_salad Date_parse w now req)
  /\ snd (Routes.job_status checkSaladStatus w now jobId)
     = Worker.updateJobFromSalad w now jobId saladStatus.
Proof.
  intros Hjob Hs Hsid Hne Hcheck Hnp Hpayload Hfresh Hlookup.
  assert (Hpoll : snd (Routes.job_status checkSaladStatus w now jobId)
                  = Worker.updateJobFromSalad w now jobId saladStatus).
  { unfold Routes.job_status. rewrite Hjob, Hs, Hsid. simpl.
    destruct saladJobId as [|c sid]; [now elim Hne|]. simpl.
    rewrite Hcheck.
    destruct (String.eqb_spec (Salad.status saladStatus) "processing");
      [contradiction|]. simpl.
    now destruct (Job.first_where_id jobId
                    (db (Worker.updateJobFromSalad w now jobId saladStatus))). }
  split; [|exact Hpoll].
  rewrite Hpoll.
  destruct (webhook_salad_cases Date_parse w now req) as [[H _]|[H _]].
  - rewrite H in Hfresh. now elim Hfresh.
  - rewrite H, Hpayload.
    destruct (Job.first_where_salad_job_id _ _) as [result|];
      [|discriminate Hlookup].
    simpl in Hlookup. injection Hlookup as ->. reflexivity.
Qed.

Lemma poll_applies_like_webhook_witness :
  snd (Routes.job_status (Sample.salad_says Sample.failed)
         Sample.processing_world Sample.noon "job-1")
  = snd (Routes.webhook_salad Sample.no_parse Sample.processing_world
           Sample.noon (Sample.delivery Sample.failed)).
Proof.
  refine (proj1 (poll_applies_like_webhook Sample.no_parse
                   (Sample.salad_says Sample.failed) Sample.processing_world
                   Sample.noon "job-1"
                   (Sample.job Job.Processing (Some "ext-1"%string)) "ext-1"
                   Sample.failed (Sample.delivery Sample.failed)
                   eq_refl eq_refl eq_refl _ eq_refl _ eq_refl _ eq_refl));
    discriminate.
Defined.
